(** * calcium_imaging.py: dF/F normalisation of calcium-imaging recordings

    A shallow embedding of [src/calcium_imaging.py] (a Python 2 / numpy
    script) and the properties of it that the specification states.

    Conventions of the embedding.
    - A numpy [float64] is an exact rational extended with the three IEEE
      special values.  Rounding, overflow and the sign of zero are not
      modelled: a zero divisor is read as [+0.0].
    - A file is represented by the numeric column that [np.genfromtxt]
      extracts from it; the directory tree by the listing [os.listdir] /
      [os.walk] return for it.  A file written under a new name is
      listed last; the order of a real listing is the file system's.
    - Python exceptions are the [Raise] outcomes of an error monad; an
      exception aborts the run, as the script has no handler.  Only the
      exceptions of the embedded lines are modelled, not those of
      [chdir], [listdir] or matplotlib.
    - What matplotlib draws is outside the model: a plot is the record of
      the arguments the script hands to it.  The image that
      [plt.savefig] writes is not added to the directory: [out_fs] is
      the directory as the Normalizer leaves it, the one that the Range
      Scanner and the Plotter read. *)

From Stdlib Require Import QArith Qcanon ZArith Lia.
From Stdlib Require Import Strings.String Strings.Ascii.
From Stdlib Require Import Lists.List Sorting.Permutation.
From stdpp Require Import base numbers list strings.

Local Open Scope string_scope.
Local Open Scope list_scope.
Local Open Scope Z_scope.

(** ** Python exceptions and the error monad *)

Inductive exn : Set :=
  | IndexError
  | ValueError
  | IOError
  | NameError
  | UnicodeDecodeError.

Inductive result (A : Type) : Type :=
  | Ok (a : A)
  | Raise (e : exn).
Arguments Ok {A} a.
Arguments Raise {A} e.

Global Instance exn_eq_dec : EqDecision exn.
Proof. solve_decision. Defined.
Global Instance result_eq_dec `{EqDecision A} : EqDecision (result A).
Proof. solve_decision. Defined.

Global Instance result_ret : MRet result := fun _ a => Ok a.
Global Instance result_bind : MBind result := fun _ _ f m =>
  match m with
  | Ok a => f a
  | Raise e => Raise e
  end.

(** [l[0]] on a Python list. *)
Definition item0 {A} (l : list A) : result A :=
  match l with
  | x :: _ => Ok x
  | [] => Raise IndexError
  end.

(** A [for] loop whose body may raise, threading the loop-carried state. *)
Fixpoint for_each {A S} (body : S -> A -> result S) (l : list A) (s : S)
  : result S :=
  match l with
  | [] => Ok s
  | x :: l' => s' ← body s x; for_each body l' s'
  end.

(** ** numpy float64 *)

Module Float.

Inductive float64 : Set :=
  | Fin (q : Qc)
  | PInf
  | NInf
  | NaN.

Global Instance float64_eq_dec : EqDecision float64.
Proof. solve_decision. Defined.

Definition of_Z (n : Z) : float64 := Fin (Q2Qc (inject_Z n)).
Definition ratio (n : Z) (d : positive) : float64 := Fin (Q2Qc (n # d)).

Definition fsub (a b : float64) : float64 :=
  match a, b with
  | NaN, _ | _, NaN => NaN
  | Fin x, Fin y => Fin (x - y)
  | PInf, PInf | NInf, NInf => NaN
  | PInf, _ => PInf
  | NInf, _ => NInf
  | Fin _, PInf => NInf
  | Fin _, NInf => PInf
  end.

Definition fdiv (a b : float64) : float64 :=
  match a, b with
  | NaN, _ | _, NaN => NaN
  | Fin x, Fin y =>
      if decide (y = 0%Qc) then
        if decide (x = 0%Qc) then NaN
        else if decide (0 < x)%Qc then PInf else NInf
      else Fin (x / y)
  | Fin _, (PInf | NInf) => Fin 0%Qc
  | (PInf | NInf), (PInf | NInf) => NaN
  | PInf, Fin y => if decide (0 ≤ y)%Qc then PInf else NInf
  | NInf, Fin y => if decide (0 ≤ y)%Qc then NInf else PInf
  end.

Definition inf_of_sign (positive_sign : bool) : float64 :=
  if positive_sign then PInf else NInf.

Definition fmul (a b : float64) : float64 :=
  match a, b with
  | NaN, _ | _, NaN => NaN
  | Fin x, Fin y => Fin (x * y)
  | PInf, Fin y | Fin y, PInf =>
      if decide (y = 0%Qc) then NaN else inf_of_sign (bool_decide (0 < y)%Qc)
  | NInf, Fin y | Fin y, NInf =>
      if decide (y = 0%Qc) then NaN else inf_of_sign (bool_decide (y < 0)%Qc)
  | PInf, PInf | NInf, NInf => PInf
  | PInf, NInf | NInf, PInf => NInf
  end.

(** [a < b]; every comparison with [NaN] is false. *)
Definition flt (a b : float64) : bool :=
  match a, b with
  | Fin x, Fin y => bool_decide (x < y)%Qc
  | NInf, (Fin _ | PInf) => true
  | Fin _, PInf => true
  | _, _ => false
  end.

Definition fgt (a b : float64) : bool := flt b a.

(** The binary step of [np.max] / [np.min]: a [NaN] operand wins. *)
Definition fmax (a b : float64) : float64 :=
  match a, b with
  | NaN, _ | _, NaN => NaN
  | _, _ => if flt a b then b else a
  end.

Definition fmin (a b : float64) : float64 :=
  match a, b with
  | NaN, _ | _, NaN => NaN
  | _, _ => if flt b a then b else a
  end.

End Float.
Export Float.

(** ** Python byte strings *)

Module Str.

(** [sub in s] and [s.find(sub)], [s.rfind(sub)] (-1 when absent). *)
Fixpoint find_nat (sub s : string) : option nat :=
  if String.prefix sub s then Some 0%nat
  else match s with
       | EmptyString => None
       | String _ s' => option_map S (find_nat sub s')
       end.

Fixpoint rfind_nat (sub s : string) : option nat :=
  match s with
  | EmptyString => if String.prefix sub s then Some 0%nat else None
  | String _ s' =>
      match rfind_nat sub s' with
      | Some i => Some (S i)
      | None => if String.prefix sub s then Some 0%nat else None
      end
  end.

Definition index_or_minus1 (o : option nat) : Z :=
  match o with
  | Some i => Z.of_nat i
  | None => -1
  end.

Definition find (sub s : string) : Z := index_or_minus1 (find_nat sub s).
Definition rfind (sub s : string) : Z := index_or_minus1 (rfind_nat sub s).

Definition contains (sub s : string) : bool :=
  match find_nat sub s with
  | Some _ => true
  | None => false
  end.

Definition len (s : string) : Z := Z.of_nat (String.length s).

(** A slice bound as Python adjusts it: negative bounds count from the
    end, and every bound is clamped to [0 .. len]. *)
Definition clamp (n i : Z) : Z :=
  if i <? 0 then Z.max 0 (i + n) else Z.min i n.

(** [s[i:j]] *)
Definition slice (s : string) (i j : Z) : string :=
  let lo := clamp (len s) i in
  let hi := clamp (len s) j in
  String.substring (Z.to_nat lo) (Z.to_nat (hi - lo)) s.

(** [s[i:]] *)
Definition slice_from (s : string) (i : Z) : string := slice s i (len s).

(** [s.endswith(suf)] *)
Definition endswith (suf s : string) : bool :=
  (String.length suf <=? String.length s)%nat
  && String.eqb
       (String.substring (String.length s - String.length suf)
          (String.length suf) s)
       suf.

(** [x in l] for a list of strings. *)
Definition mem (x : string) (l : list string) : bool :=
  existsb (String.eqb x) l.

(** [x.encode('UTF8')] on a Python 2 byte string: the bytes are first
    decoded as ASCII, which raises on any byte above 127. *)
Definition is_ascii (s : string) : bool :=
  forallb (fun c => (nat_of_ascii c <? 128)%nat) (list_ascii_of_string s).

Definition encode_utf8 (s : string) : result string :=
  if is_ascii s then Ok s else Raise UnicodeDecodeError.

End Str.

(** ** The rate pattern and Python's [float()] *)

Module Re.

Definition is_digit (c : ascii) : bool :=
  (48 <=? nat_of_ascii c)%nat && (nat_of_ascii c <=? 57)%nat.
Definition is_sign (c : ascii) : bool :=
  Ascii.eqb c "+" || Ascii.eqb c "-".
Definition is_dot (c : ascii) : bool := Ascii.eqb c ".".
Definition is_exp (c : ascii) : bool :=
  Ascii.eqb c "e" || Ascii.eqb c "E".

(** [c?]: at most one leading character of class [p]. *)
Definition opt (p : ascii -> bool) (s : string) : string * string :=
  match s with
  | String c s' => if p c then (String c EmptyString, s') else (EmptyString, s)
  | EmptyString => (EmptyString, s)
  end.

(** [c*]: the longest prefix of characters of class [p]. *)
Fixpoint many (p : ascii -> bool) (s : string) : string * string :=
  match s with
  | String c s' =>
      if p c then let '(m, r) := many p s' in (String c m, r)
      else (EmptyString, s)
  | EmptyString => (EmptyString, s)
  end.

Definition is_empty (s : string) : bool :=
  match s with EmptyString => true | _ => false end.

(** The match of [[-+]?\d+[\.]?\d*[eE]?[-+]?\d*] that starts at the head
    of [s], if there is one.  Every item after [\d+] may match the empty
    string, so the greedy choice is never undone; when a sign is not
    followed by a digit, backtracking over [[-+]?] leaves [\d+] facing the
    sign, and there is no match at this position. *)
Definition match_here (s : string) : option string :=
  let '(sg, s1) := opt is_sign s in
  let '(d1, s2) := many is_digit s1 in
  if is_empty d1 then None
  else
    let '(dot, s3) := opt is_dot s2 in
    let '(d2, s4) := many is_digit s3 in
    let '(e, s5) := opt is_exp s4 in
    let '(sg2, s6) := opt is_sign s5 in
    let '(d3, _) := many is_digit s6 in
    Some (sg ++ d1 ++ dot ++ d2 ++ e ++ sg2 ++ d3)%string.

(** [re.findall(pattern, s)]: the non-overlapping matches, scanning left
    to right.  [skip] counts the characters of the last match that are
    still to be passed over. *)
Fixpoint findall_from (skip : nat) (s : string) : list string :=
  match s with
  | EmptyString => []
  | String _ s' =>
      match skip with
      | S k => findall_from k s'
      | O =>
          match match_here s with
          | Some m => m :: findall_from (String.length m - 1) s'
          | None => findall_from 0 s'
          end
      end
  end.

Definition findall (s : string) : list string := findall_from 0 s.

(** Decimal value of a string of digits. *)
Definition digit_val (c : ascii) : Z := Z.of_nat (nat_of_ascii c) - 48.

Fixpoint digits_val (acc : Z) (s : string) : Z :=
  match s with
  | EmptyString => acc
  | String c s' => digits_val (10 * acc + digit_val c) s'
  end.

(** The number [sign * mant * 10^(ex - places)]. *)
Definition decimal (negative : bool) (mant : Z) (places : nat) (ex : Z)
  : float64 :=
  let m := if negative then - mant else mant in
  let e := ex - Z.of_nat places in
  Fin (Q2Qc (Qmake (m * 10 ^ Z.max 0 e) (Z.to_pos (10 ^ Z.max 0 (- e))))).

(** [float(s)] for a text over the characters of the pattern: a sign, an
    integer and a fraction part of which one at least is present, and an
    exponent that, once begun, must carry digits; anything left over
    raises [ValueError]. *)
Definition float (s : string) : result float64 :=
  let '(sg, s1) := opt is_sign s in
  let '(ip, s2) := many is_digit s1 in
  let '(_, s3) := opt is_dot s2 in
  let '(fp, s4) := many is_digit s3 in
  if is_empty ip && is_empty fp then Raise ValueError
  else
    let mant := digits_val 0 (ip ++ fp)%string in
    let neg := String.eqb sg "-" in
    let '(e, s5) := opt is_exp s4 in
    if is_empty e then
      if is_empty s5 then Ok (decimal neg mant (String.length fp) 0)
      else Raise ValueError
    else
      let '(sg2, s6) := opt is_sign s5 in
      let '(ex, s7) := many is_digit s6 in
      if is_empty ex || negb (is_empty s7) then Raise ValueError
      else
        let x := digits_val 0 ex in
        Ok (decimal neg mant (String.length fp)
              (if String.eqb sg2 "-" then - x else x)).

End Re.

(** ** numpy arrays of one column *)

Module Np.

(** A loaded column is a 0-d array (a lone value) or a 1-d array. *)
Inductive ndarray : Type :=
  | Arr0 (x : float64)
  | Arr1 (l : list float64).

Global Instance ndarray_eq_dec : EqDecision ndarray.
Proof. solve_decision. Defined.

(** [np.ravel]: the values of the array in order. *)
Definition ravel (a : ndarray) : list float64 :=
  match a with
  | Arr0 x => [x]
  | Arr1 l => l
  end.

(** [np.squeeze] as [genfromtxt] applies it to the rows it has read: a
    single row collapses to a 0-d array. *)
Definition squeeze (rows : list float64) : ndarray :=
  match rows with
  | [x] => Arr0 x
  | _ => Arr1 rows
  end.

(** An elementwise binary operator under numpy's broadcasting rules. *)
Definition broadcast (f : float64 -> float64 -> float64) (a b : ndarray)
  : result ndarray :=
  match a, b with
  | Arr0 x, Arr0 y => Ok (Arr0 (f x y))
  | Arr0 x, Arr1 l => Ok (Arr1 (map (f x) l))
  | Arr1 l, Arr0 y => Ok (Arr1 (map (fun x => f x y) l))
  | Arr1 l1, Arr1 l2 =>
      if (length l1 =? length l2)%nat then Ok (Arr1 (zip_with f l1 l2))
      else
        match l1, l2 with
        | [x], _ => Ok (Arr1 (map (f x) l2))
        | _, [y] => Ok (Arr1 (map (fun x => f x y) l1))
        | _, _ => Raise ValueError
        end
  end.

(** [np.max] and [np.min]: reductions without identity, so an empty
    array raises. *)
Definition np_max (a : ndarray) : result float64 :=
  match ravel a with
  | [] => Raise ValueError
  | x :: l => Ok (fold_left fmax l x)
  end.

Definition np_min (a : ndarray) : result float64 :=
  match ravel a with
  | [] => Raise ValueError
  | x :: l => Ok (fold_left fmin l x)
  end.

(** [a.shape[0]] *)
Definition shape0 (a : ndarray) : result nat :=
  match a with
  | Arr0 _ => Raise IndexError
  | Arr1 l => Ok (length l)
  end.

End Np.
Export Np.

(** ** The directory tree *)

Module Fs.

Definition data : Type := list float64.

(** [top]: the plain files of the working directory, in the order
    [listdir] reports them.  [sub]: the directories below it in the order
    [os.walk] visits them, each with its path relative to the working
    directory and its plain files. *)
Record filesystem : Type := {
  top : list (string * data);
  sub : list (string * list (string * data))
}.

Definition mypath : string := "/where/your/files/are/".

(** [os.path.join(a, b)] *)
Definition path_join (a b : string) : string :=
  if String.prefix "/" b then b
  else if Re.is_empty a || Str.endswith "/" a then (a ++ b)%string
  else (a ++ "/" ++ b)%string.

(** [[f for f in listdir(mypath) if isfile(join(mypath, f))]] *)
Definition listdir_files (fs : filesystem) : list string := map fst (top fs).

(** [os.walk(mypath)], without the sub-directory names it also yields. *)
Definition os_walk (fs : filesystem) : list (string * list string) :=
  (mypath, map fst (top fs))
  :: map (fun d => (path_join mypath (fst d), map fst (snd d))) (sub fs).

Fixpoint assoc (k : string) (l : list (string * data)) : option data :=
  match l with
  | [] => None
  | (k', d) :: l' => if String.eqb k k' then Some d else assoc k l'
  end.

Fixpoint assoc_dir (k : string) (l : list (string * list (string * data)))
  : option (list (string * data)) :=
  match l with
  | [] => None
  | (r, files) :: l' =>
      if String.eqb k (path_join mypath r ++ "/")%string then Some files
      else assoc_dir k l'
  end.

(** The content of the file at path [p]; a relative path is resolved
    against the working directory, which [chdir(mypath)] made [mypath]. *)
Definition read (fs : filesystem) (p : string) : option data :=
  let full := path_join mypath p in
  let cut := Str.rfind "/" full + 1 in
  let dir := Str.slice full 0 cut in
  let base := Str.slice_from full cut in
  if String.eqb dir mypath then assoc base (top fs)
  else files ← assoc_dir dir (sub fs); assoc base files.

(** [np.genfromtxt(p, ...)] *)
Definition genfromtxt (fs : filesystem) (p : string) : result ndarray :=
  match read fs p with
  | Some rows => Ok (squeeze rows)
  | None => Raise IOError
  end.

(** Writing a file of the working directory: an existing file is
    overwritten where it stands, a new one joins the listing. *)
Fixpoint write (name : string) (d : data) (l : list (string * data))
  : list (string * data) :=
  match l with
  | [] => [(name, d)]
  | (k, d') :: l' =>
      if String.eqb name k then (k, d) :: l' else (k, d') :: write name d l'
  end.

(** [np.savetxt(name, a, delimiter=",")]: one value per line; only 1-d
    arrays of this model can be written, a 0-d array raises. *)
Definition savetxt (fs : filesystem) (name : string) (a : ndarray)
  : result filesystem :=
  match a with
  | Arr0 _ => Raise ValueError
  | Arr1 l => Ok {| top := write name l (top fs); sub := sub fs |}
  end.

End Fs.
Export Fs.

(** ** The script *)

Module Script.

(** *** File Classifier (lines 20-40) *)

Fixpoint encode_all (l : list string) : result (list string) :=
  match l with
  | [] => Ok []
  | x :: l' => y ← Str.encode_utf8 x; ys ← encode_all l'; Ok (y :: ys)
  end.

Definition convertedfiles (fs : filesystem) : result (list string) :=
  encode_all (listdir_files fs).

Definition convertedfiles2 (l : list string) : list string :=
  List.filter (Str.contains ".txt") l.

(** [cafiles] is assigned five times; the number is the line. *)
Definition cafiles23 (l : list string) : list string :=
  List.filter (Str.contains "dt_") (convertedfiles2 l).

(** [s[0:2]=="._" in s] is a chained comparison: both must hold. *)
Definition osxbug (l : list string) : list string :=
  List.filter
    (fun s => String.eqb (Str.slice s 0 2) "._" && Str.contains "._" s)
    (cafiles23 l).

Definition cafiles26 (l : list string) : list string :=
  List.filter (fun filename => negb (Str.mem filename (osxbug l)))
    (cafiles23 l).

Definition cafiles27 (l : list string) : list string :=
  List.filter (fun s => negb (Str.contains "Normalized_Neuron." s))
    (cafiles26 l).

Definition controlfile (l : list string) : list string :=
  List.filter (Str.contains "control") (cafiles27 l).

Definition cafiles32 (l : list string) : list string :=
  List.filter (fun s => negb (Str.contains "control" s)) (cafiles27 l).

Definition UVfile (l : list string) : list string :=
  List.filter (Str.contains "UV") (cafiles32 l).

Definition cafiles (l : list string) : list string :=
  List.filter (fun s => negb (Str.contains "UV" s)) (cafiles32 l).

(** *** Baseline Loader (lines 31, 36-38) *)

Definition load_control (fs : filesystem) (l : list string)
  : result ndarray :=
  name ← item0 (controlfile l); genfromtxt fs name.

(** [(UV-np.min(UV))/(np.max(UV)-np.min(UV))]; a numpy scalar operand is
    a 0-d array. *)
Definition UVnorm (UV : ndarray) : result ndarray :=
  lo ← np_min UV;
  num ← broadcast fsub UV (Arr0 lo);
  hi ← np_max UV;
  lo' ← np_min UV;
  broadcast fdiv num (Arr0 (fsub hi lo')).

Definition load_UV (fs : filesystem) (l : list string) : result filesystem :=
  name ← item0 (UVfile l);
  UV ← genfromtxt fs name;
  norm ← UVnorm UV;
  savetxt fs "UV.csv" norm.

(** *** Normalizer (lines 45-53) *)

Definition output_filename (source_filename : string) : string :=
  (Str.slice source_filename
     (Str.rfind "dt_" source_filename + 3)
     (Str.rfind "Values" source_filename)
   ++ ".csv")%string.

Definition timerate (source_filename : string) : result float64 :=
  m ← item0
        (Re.findall
           (Str.slice source_filename
              (Str.find "_dt" source_filename)
              (Str.len source_filename)));
  Re.float m.

Definition dF_F (raw control : ndarray) : result ndarray :=
  diff ← broadcast fsub raw control;
  broadcast fdiv diff control.

(** The loop-carried state: the directory, and the global [dF_F] that
    the Range Scanner reads after its own loop. *)
Definition normalize_file (control : ndarray)
    (st : filesystem * option ndarray) (source_filename : string)
  : result (filesystem * option ndarray) :=
  let fs := fst st in
  let out := output_filename source_filename in
  _ ← timerate source_filename;
  raw ← genfromtxt fs source_filename;
  d ← dF_F raw control;
  fs' ← savetxt fs out d;
  Ok (fs', Some d).

(** *** Range Scanner (lines 56-63) *)

Definition csvz (fs : filesystem) : list string :=
  flat_map
    (fun entry =>
       map (path_join (fst entry))
         (List.filter (Str.endswith ".csv") (snd entry)))
    (os_walk fs).

Definition headroom : float64 := ratio 11 10.

(** Lines 60-61 on the array just loaded. *)
Definition range_step (maxvalue : float64) (d : ndarray) : result float64 :=
  m ← np_max d;
  if fgt m maxvalue then m' ← np_max d; Ok (fmul m' headroom)
  else Ok maxvalue.

(** Lines 58-61: one turn of the loop. *)
Definition scan_file (fs : filesystem) (st : float64 * option ndarray)
    (files : string) : result (float64 * option ndarray) :=
  d ← genfromtxt fs files;
  maxvalue ← range_step (fst st) d;
  Ok (maxvalue, Some d).

(** Lines 62-63 stand after the loop, at the indentation of the [for]:
    they run once, on the array the global [dF_F] then holds. *)
Definition final_min (minvalue : float64) (last : option ndarray)
  : result float64 :=
  match last with
  | None => Raise NameError
  | Some d =>
      m ← np_min d;
      if flt m minvalue then np_min d else Ok minvalue
  end.

(** The pass over [paths], from the seeds [maxvalue], [minvalue] and the
    value [dF_F] that the global holds on entry. *)
Definition range_scanner (fs : filesystem) (paths : list string)
    (maxvalue minvalue : float64) (dF_F : option ndarray)
  : result (float64 * float64) :=
  st ← for_each (scan_file fs) paths (maxvalue, dF_F);
  mn ← final_min minvalue (snd st);
  Ok (fst st, mn).

(** *** Plotter (lines 66-113) *)

Record plot : Type := {
  title : string;
  ydata : list float64;
  ylim : float64 * float64;
  xlim : float64 * nat;
  bar_origin : float64 * float64;
  bar_width : float64;
  bar_height : float64;
  image : string
}.

Definition drawer (fs : filesystem) (minvalue : float64) (files : string)
    (maxvalue : float64) : result plot :=
  let output_imagename := Str.slice_from files (Str.rfind "/" files + 1) in
  dF_F ← genfromtxt fs output_imagename;
  let y_range_high := fsub maxvalue (of_Z 1) in
  let timerate := ratio 111 100 in
  plot_range ← shape0 dF_F;
  Ok {| title := output_imagename;
        ydata := ravel dF_F;
        ylim := (minvalue, maxvalue);
        xlim := (of_Z 0, plot_range);
        bar_origin := (of_Z 0, y_range_high);
        bar_width := fdiv (of_Z 60) timerate;
        bar_height := ratio 1 2;
        image := (Str.slice output_imagename 0 (-4) ++ ".png")%string |}.

Fixpoint draw_all (fs : filesystem) (minvalue maxvalue : float64)
    (paths : list string) : result (list plot) :=
  match paths with
  | [] => Ok []
  | files :: rest =>
      p ← drawer fs minvalue files maxvalue;
      ps ← draw_all fs minvalue maxvalue rest;
      Ok (p :: ps)
  end.

(** *** The whole run *)

Record outcome : Type := {
  out_fs : filesystem;
  out_control : ndarray;
  out_cafiles : list string;
  out_csvz : list string;
  out_maxvalue : float64;
  out_minvalue : float64;
  out_plots : list plot
}.

Definition run (fs : filesystem) : result outcome :=
  names ← convertedfiles fs;
  control ← load_control fs names;
  fs1 ← load_UV fs names;
  st ← for_each (normalize_file control) (cafiles names) (fs1, None);
  let fs2 := fst st in
  let paths := csvz fs2 in
  range ← range_scanner fs2 paths (of_Z 0) (of_Z 0) (snd st);
  plots ← draw_all fs2 (snd range) (fst range) paths;
  Ok {| out_fs := fs2;
        out_control := control;
        out_cafiles := cafiles names;
        out_csvz := paths;
        out_maxvalue := fst range;
        out_minvalue := snd range;
        out_plots := plots |}.

End Script.
Export Script.


(** * Vocabulary of the properties *)

Global Instance filesystem_eq_dec : EqDecision filesystem.
Proof. solve_decision. Defined.

(** ** Extrema of finite sequences *)

Definition is_max (m : Qc) (l : list Qc) : Prop :=
  m ∈ l /\ forall x, x ∈ l -> (x <= m)%Qc.

Definition is_min (m : Qc) (l : list Qc) : Prop :=
  m ∈ l /\ forall x, x ∈ l -> (m <= x)%Qc.



(** The values [maxvalue] can take: it starts at 0 and only grows. *)
Definition nonneg (a : float64) : Prop :=
  match a with
  | Fin q => (0 <= q)%Qc
  | PInf => True
  | NInf | NaN => False
  end.

(** ** File names *)

(** The test of line 25 on one name. *)
Definition hidden (s : string) : bool :=
  String.eqb (Str.slice s 0 2) "._" && Str.contains "._" s.

(** The names that survive lines 22-27. *)
Definition candidate (s : string) : bool :=
  Str.contains ".txt" s && Str.contains "dt_" s && negb (hidden s)
  && negb (Str.contains "Normalized_Neuron." s).

(** The text that line 48 hands to [re.findall]. *)
Definition searched (source_filename : string) : string :=
  Str.slice source_filename (Str.find "_dt" source_filename)
    (Str.len source_filename).

Fixpoint no_digit (s : string) : bool :=
  match s with
  | EmptyString => true
  | String c s' => negb (Re.is_digit c) && no_digit s'
  end.

Definition starts_without_digit (s : string) : bool :=
  match s with
  | EmptyString => true
  | String c _ => negb (Re.is_digit c)
  end.

(** [files[(files.rfind('/')+1):]], the name the Plotter opens. *)
Definition basename (files : string) : string :=
  Str.slice_from files (Str.rfind "/" files + 1).

(** ** Example directories *)

(** A control, a UV reference and one recording of four samples. *)
Definition plain_dir : filesystem :=
  {| top := [("control_dt_1.txt", of_Z <$> [1; 1; 1; 1]);
             ("UV_dt_1.txt", of_Z <$> [0; 5; 10]);
             ("a_dt_2_Values.txt", of_Z <$> [2; 1; 0; 1])];
     sub := [] |}.

Definition default_outcome : outcome :=
  {| out_fs := {| top := []; sub := [] |};
     out_control := Arr1 [];
     out_cafiles := [];
     out_csvz := [];
     out_maxvalue := NaN;
     out_minvalue := NaN;
     out_plots := [] |}.

Definition value {A} (default : A) (r : result A) : A :=
  match r with
  | Ok a => a
  | Raise _ => default
  end.

Definition plain_outcome : outcome := value default_outcome (run plain_dir).

(** [plain_dir] after the Baseline Loader has written UV.csv, and after
    the Normalizer has written the trace of its recording. *)
Definition plain_loaded : filesystem :=
  value plain_dir (load_UV plain_dir (listdir_files plain_dir)).

Definition plain_normalized : filesystem * option ndarray :=
  value (plain_dir, None)
    (for_each (normalize_file (Arr1 (of_Z <$> [1; 1; 1; 1])))
       (cafiles (listdir_files plain_dir)) (plain_loaded, None)).

(** A recording alone, before and after the Normalizer has handled it. *)
Definition four_sample_dir : filesystem :=
  {| top := [("a_dt_2_Values.txt", of_Z <$> [2; 1; 0; 1])]; sub := [] |}.

Definition four_sample_dir_after : filesystem :=
  {| top := [("a_dt_2_Values.txt", of_Z <$> [2; 1; 0; 1]);
             ("2_.csv", of_Z <$> [1; 0; -1; 0])];
     sub := [] |}.

(** A recording of a single sample next to a control of four. *)
Definition one_sample_dir : filesystem :=
  {| top := [("control_dt_1.txt", of_Z <$> [1; 1; 1; 1]);
             ("UV_dt_1.txt", of_Z <$> [0; 5; 10]);
             ("a_dt_2_Values.txt", [of_Z 2])];
     sub := [] |}.

(** Two files that match the control designation. *)
Definition two_controls_dir : filesystem :=
  {| top := [("control_dt_1.txt", of_Z <$> [1; 1]);
             ("control_dt_2.txt", of_Z <$> [2; 2]);
             ("UV_dt_1.txt", of_Z <$> [0; 5]);
             ("a_dt_2_Values.txt", of_Z <$> [2; 1])];
     sub := [] |}.

(** Trace files [0, 1] and [0, 1.05]. *)
Definition scan_order_dir : filesystem :=
  {| top := [("a.csv", [of_Z 0; of_Z 1]);
             ("b.csv", [of_Z 0; ratio 21 20])];
     sub := [] |}.

(** Trace files [-0.2, 0.8] and [-0.1, 1.2]. *)
Definition two_traces_dir : filesystem :=
  {| top := [("a.csv", [ratio (-1) 5; ratio 4 5]);
             ("b.csv", [ratio (-1) 10; ratio 6 5])];
     sub := [] |}.

(** A batch whose only recording has the trace [0, 1.05]. *)
Definition headroom_dir : filesystem :=
  {| top := [("control_dt_1.txt", of_Z <$> [1; 1]);
             ("UV_dt_1.txt", of_Z <$> [0; 5]);
             ("a_dt_1_xValues.txt", [of_Z 1; ratio 41 20])];
     sub := [] |}.

(** A batch of two recordings with the traces [-0.2, 0.8] and
    [-0.1, 1.2]. *)
Definition two_recordings_dir : filesystem :=
  {| top := [("control_dt_1.txt", of_Z <$> [1; 1]);
             ("UV_dt_1.txt", of_Z <$> [0; 5]);
             ("a_dt_1_xValues.txt", [ratio 4 5; ratio 9 5]);
             ("b_dt_1_yValues.txt", [ratio 9 10; ratio 11 5])];
     sub := [] |}.

(** A file a.csv in the working directory and another in the
    sub-directory [old]. *)
Definition nested_dir : filesystem :=
  {| top := [("control_dt_1.txt", of_Z <$> [1; 1]);
             ("UV_dt_1.txt", of_Z <$> [0; 5]);
             ("a.csv", of_Z <$> [0; 2])];
     sub := [("old", [("a.csv", of_Z <$> [5; 6; 7])])] |}.

(** ** Occurrences *)

(** [sub] occurs in [s]: what [sub in s], [find] and [rfind] look for. *)
Definition occurs (sub s : string) : Prop :=
  exists a b, s = (a ++ sub ++ b)%string.

(** ** What a write must leave as it was *)

(** The candidates of the listing, the content of every candidate file
    and the sub-directories are the same in [fs'] as in [fs]. *)
Definition same_inputs (fs fs' : filesystem) : Prop :=
  List.filter candidate (listdir_files fs')
  = List.filter candidate (listdir_files fs)
  /\ (forall k, candidate k = true -> assoc k (top fs') = assoc k (top fs))
  /\ sub fs' = sub fs.

(** ** An example plot *)

Definition default_plot : plot :=
  {| title := ""; ydata := []; ylim := (NaN, NaN); xlim := (NaN, 0%nat);
     bar_origin := (NaN, NaN); bar_width := NaN; bar_height := NaN;
     image := "" |}.

(** The plot of the trace 2_.csv of [four_sample_dir_after] within the
    limits -1 and 1.1. *)
Definition trace_plot : plot :=
  value default_plot
    (drawer four_sample_dir_after (of_Z (-1))
       (path_join mypath ("2_" ++ ".csv")) (ratio 11 10)).

(** * Properties of the script *)


(** ** Elementwise arithmetic *)

Lemma bind_Ok {A B} (f : A -> result B) (a : A) : (Ok a ≫= f) = f a.
Proof. reflexivity. Qed.

Lemma bind_Ok_inv {A B} (f : A -> result B) (m : result A) (b : B) :
  (m ≫= f) = Ok b -> exists a, m = Ok a /\ f a = Ok b.
Proof. destruct m as [a|e]; simpl; [eauto | discriminate]. Qed.

(** A successful sequence of steps: name the result of the first step
    and keep the rest in [H]. *)
Tactic Notation "step" hyp(H) "as" simple_intropattern(x)
    simple_intropattern(Hx) :=
  apply bind_Ok_inv in H as (x & Hx & H).

Lemma broadcast_same_length f (l1 l2 : list float64) :
  length l1 = length l2 ->
  broadcast f (Arr1 l1) (Arr1 l2) = Ok (Arr1 (zip_with f l1 l2)).
Proof. intros H. simpl. rewrite H, Nat.eqb_refl. reflexivity. Qed.

Lemma zip_with_zip_with_l {A B C} (f : A -> B -> A) (g : A -> B -> C)
    (l : list A) (k : list B) :
  zip_with g (zip_with f l k) k = zip_with (fun a b => g (f a b) b) l k.
Proof.
  revert k. induction l as [|a l IH]; intros [|b k]; simpl; try reflexivity.
  f_equal. apply IH.
Qed.

(** [dF_F] on a recording and a control of equal length, at the level of
    float64 values: the quotient is taken row by row. *)
Lemma dF_F_rows (R C : list float64) :
  length R = length C ->
  dF_F (squeeze R) (squeeze C)
  = Ok (squeeze (zip_with (fun r c => fdiv (fsub r c) c) R C)).
Proof.
  intros Hlen.
  destruct R as [|r [|r' R]], C as [|c [|c' C]]; try discriminate Hlen;
    try reflexivity.
  unfold dF_F. change (squeeze (r :: r' :: R)) with (Arr1 (r :: r' :: R)).
  change (squeeze (c :: c' :: C)) with (Arr1 (c :: c' :: C)).
  rewrite broadcast_same_length by exact Hlen. rewrite bind_Ok.
  rewrite broadcast_same_length by (rewrite length_zip_with; lia).
  rewrite zip_with_zip_with_l. reflexivity.
Qed.

Lemma ravel_squeeze (l : list float64) : ravel (squeeze l) = l.
Proof. destruct l as [|x [|y l]]; reflexivity. Qed.




(** ** [np.max] and [np.min] on finite values *)

Section extrema.
Local Open Scope Qc_scope.

Lemma fmax_finite (x y : Qc) :
  fmax (Fin x) (Fin y) = Fin (if decide (x < y) then y else x).
Proof. simpl. unfold bool_decide. destruct (decide_rel Qclt x y), (decide (x < y)); done. Qed.

Lemma fmin_finite (x y : Qc) :
  fmin (Fin x) (Fin y) = Fin (if decide (y < x) then y else x).
Proof. simpl. unfold bool_decide. destruct (decide_rel Qclt y x), (decide (y < x)); done. Qed.

Lemma fold_fmax_finite (l : list Qc) (x : Qc) :
  exists m, fold_left fmax (Fin <$> l) (Fin x) = Fin m /\ is_max m (x :: l).
Proof.
  revert x. induction l as [|a l IH]; intros x.
  - exists x. split; [reflexivity |]. split; [left |].
    intros y Hy. apply list_elem_of_singleton in Hy. subst. apply Qcle_refl.
  - rewrite fmap_cons. cbn [fold_left]. rewrite fmax_finite.
    destruct (IH (if decide (x < a) then a else x)) as (m & Hm & Hin & Hub).
    exists m. split; [exact Hm |].
    assert (Hxa : x <= m /\ a <= m).
    { pose proof (Hub _ (list_elem_of_here _ _)) as H0.
      destruct (decide (x < a)) as [Hlt | Hge].
      - split; [| exact H0].
        apply Qcle_trans with a; [apply Qclt_le_weak, Hlt | exact H0].
      - split; [exact H0 |].
        apply Qcle_trans with x; [apply Qcnot_lt_le, Hge | exact H0]. }
    split.
    + apply elem_of_cons in Hin as [-> | Hin].
      * destruct (decide (x < a)); [right; left | left].
      * do 2 right. exact Hin.
    + intros y Hy. apply elem_of_cons in Hy as [-> | Hy]; [apply Hxa |].
      apply elem_of_cons in Hy as [-> | Hy]; [apply Hxa |].
      apply Hub. right. exact Hy.
Qed.

Lemma fold_fmin_finite (l : list Qc) (x : Qc) :
  exists m, fold_left fmin (Fin <$> l) (Fin x) = Fin m /\ is_min m (x :: l).
Proof.
  revert x. induction l as [|a l IH]; intros x.
  - exists x. split; [reflexivity |]. split; [left |].
    intros y Hy. apply list_elem_of_singleton in Hy. subst. apply Qcle_refl.
  - rewrite fmap_cons. cbn [fold_left]. rewrite fmin_finite.
    destruct (IH (if decide (a < x) then a else x)) as (m & Hm & Hin & Hlb).
    exists m. split; [exact Hm |].
    assert (Hxa : m <= x /\ m <= a).
    { pose proof (Hlb _ (list_elem_of_here _ _)) as H0.
      destruct (decide (a < x)) as [Hlt | Hge].
      - split; [| exact H0].
        apply Qcle_trans with a; [exact H0 | apply Qclt_le_weak, Hlt].
      - split; [exact H0 |].
        apply Qcle_trans with x; [exact H0 | apply Qcnot_lt_le, Hge]. }
    split.
    + apply elem_of_cons in Hin as [-> | Hin].
      * destruct (decide (a < x)); [right; left | left].
      * do 2 right. exact Hin.
    + intros y Hy. apply elem_of_cons in Hy as [-> | Hy]; [apply Hxa |].
      apply elem_of_cons in Hy as [-> | Hy]; [apply Hxa |].
      apply Hlb. right. exact Hy.
Qed.

Lemma is_max_unique (l : list Qc) (m m' : Qc) :
  is_max m l -> is_max m' l -> m = m'.
Proof. intros [Hin H] [Hin' H']. apply Qcle_antisym; auto. Qed.

Lemma is_min_unique (l : list Qc) (m m' : Qc) :
  is_min m l -> is_min m' l -> m = m'.
Proof. intros [Hin H] [Hin' H']. apply Qcle_antisym; auto. Qed.

(** On an array of finite values [np.max] returns the greatest of them
    and [np.min] the least. *)
Lemma np_max_finite (l : list Qc) (m : Qc) :
  is_max m l -> np_max (squeeze (Fin <$> l)) = Ok (Fin m).
Proof.
  intros Hm. unfold np_max. rewrite ravel_squeeze.
  destruct l as [|x l]; [destruct Hm as [Hin _]; inversion Hin |].
  rewrite fmap_cons. destruct (fold_fmax_finite l x) as (m' & -> & Hm').
  do 2 f_equal. eapply is_max_unique; eassumption.
Qed.

Lemma np_min_finite (l : list Qc) (m : Qc) :
  is_min m l -> np_min (squeeze (Fin <$> l)) = Ok (Fin m).
Proof.
  intros Hm. unfold np_min. rewrite ravel_squeeze.
  destruct l as [|x l]; [destruct Hm as [Hin _]; inversion Hin |].
  rewrite fmap_cons. destruct (fold_fmin_finite l x) as (m' & -> & Hm').
  do 2 f_equal. eapply is_min_unique; eassumption.
Qed.

Lemma is_max_exists (l : list Qc) : l <> [] -> exists m, is_max m l.
Proof.
  destruct l as [|x l]; [congruence | intros _].
  destruct (fold_fmax_finite l x) as (m & _ & Hm). eauto.
Qed.

Lemma is_min_exists (l : list Qc) : l <> [] -> exists m, is_min m l.
Proof.
  destruct l as [|x l]; [congruence | intros _].
  destruct (fold_fmin_finite l x) as (m & _ & Hm). eauto.
Qed.

End extrema.

(** ** UV rescaling *)

Section uv.
Local Open Scope Qc_scope.








Lemma fold_fmin_constant (v : Qc) (n : nat) :
  fold_left fmin (replicate n (Fin v)) (Fin v) = Fin v.
Proof.
  induction n as [|n IH]; [reflexivity |].
  cbn [replicate fold_left]. rewrite fmin_finite.
  destruct (decide (v < v)); exact IH.
Qed.

Lemma fold_fmax_constant (v : Qc) (n : nat) :
  fold_left fmax (replicate n (Fin v)) (Fin v) = Fin v.
Proof.
  induction n as [|n IH]; [reflexivity |].
  cbn [replicate fold_left]. rewrite fmax_finite.
  destruct (decide (v < v)); exact IH.
Qed.

Lemma fdiv_zero_zero (v : Qc) :
  fdiv (fsub (Fin v) (Fin v)) (fsub (Fin v) (Fin v)) = NaN.
Proof.
  cbn [fsub]. replace (v - v) with 0 by ring. reflexivity.
Qed.

(** [UVnorm] of [n + 1] copies of one finite value: no exception, and
    every quotient is 0/0. *)
Lemma UVnorm_replicate (v : Qc) (n : nat) :
  UVnorm (squeeze (replicate (S n) (Fin v)))
  = Ok (squeeze (replicate (S n) NaN)).
Proof.
  unfold UVnorm, np_min, np_max. rewrite ravel_squeeze.
  cbn [replicate]. rewrite fold_fmin_constant, fold_fmax_constant.
  destruct n as [|n].
  - cbn [replicate squeeze broadcast mbind result_bind].
    rewrite fdiv_zero_zero. reflexivity.
  - change (squeeze (Fin v :: replicate (S n) (Fin v)))
      with (Arr1 (replicate (S (S n)) (Fin v))).
    change (squeeze (NaN :: replicate (S n) NaN))
      with (Arr1 (replicate (S (S n)) NaN)).
    cbn [broadcast mbind result_bind]. do 2 f_equal.
    change (map ?f ?l) with (f <$> l). rewrite !fmap_replicate.
    f_equal. apply fdiv_zero_zero.
Qed.

End uv.

(** C6 (as the code has it). A constant UV sequence of finite values
    raises nothing: every element of the result is NaN (0/0 in numpy's
    array division), and for two or more values the Baseline Loader
    writes these NaN values to UV.csv. *)
Theorem UVnorm_constant_is_NaN (l : list Qc) (v : Qc) :
  l <> [] ->
  Forall (fun x => x = v) l ->
  UVnorm (squeeze (Fin <$> l)) = Ok (squeeze (replicate (length l) NaN))
  /\ forall fs names f rest,
       UVfile names = f :: rest ->
       read fs f = Some (Fin <$> l) ->
       (2 <= length l)%nat ->
       load_UV fs names
       = Ok {| top := write "UV.csv" (replicate (length l) NaN) (top fs);
               sub := sub fs |}.
Proof.
  intros Hne Hall.
  assert (Hl : Fin <$> l = replicate (length l) (Fin v)).
  { clear Hne. induction Hall as [|x l -> _ IH]; [reflexivity |].
    rewrite fmap_cons, IH. reflexivity. }
  assert (Hnorm : UVnorm (squeeze (Fin <$> l))
                  = Ok (squeeze (replicate (length l) NaN))).
  { rewrite Hl. destruct l as [|x l]; [congruence |].
    cbn [length]. apply UVnorm_replicate. }
  split; [exact Hnorm |].
  intros fs names f rest Hf Hread Hlen.
  unfold load_UV. rewrite Hf. cbn [item0 mbind result_bind].
  unfold genfromtxt. rewrite Hread. cbn [mbind result_bind].
  rewrite Hnorm. cbn [mbind result_bind].
  destruct (length l) as [|[|n]]; [lia | lia | reflexivity].
Qed.

Lemma UVnorm_constant_is_NaN_witness :
  UVnorm (squeeze (Fin <$> [Q2Qc 3; Q2Qc 3; Q2Qc 3]))
  = Ok (squeeze (replicate 3 NaN))
  /\ forall fs names f rest,
       UVfile names = f :: rest ->
       read fs f = Some (Fin <$> [Q2Qc 3; Q2Qc 3; Q2Qc 3]) ->
       (2 <= 3)%nat ->
       load_UV fs names
       = Ok {| top := write "UV.csv" (replicate 3 NaN) (top fs);
               sub := sub fs |}.
Proof.
  apply (UVnorm_constant_is_NaN [Q2Qc 3; Q2Qc 3; Q2Qc 3] (Q2Qc 3));
    [discriminate | repeat constructor].
Defined.

(** C6, the claim as stated, fails on UV = [3, 3, 3]: no exception is
    raised, and the rescaled sequence is three NaN values. *)
Lemma UVnorm_constant_raises_nothing :
  UVnorm (squeeze (of_Z <$> [3; 3; 3])) = Ok (Arr1 [NaN; NaN; NaN])
  /\ ~ exists e, UVnorm (squeeze (of_Z <$> [3; 3; 3])) = Raise e.
Proof.
  assert (H : UVnorm (squeeze (of_Z <$> [3; 3; 3]))
              = Ok (Arr1 [NaN; NaN; NaN])) by compute_done.
  split; [exact H |]. intros [e He]. rewrite H in He. discriminate.
Qed.

(** ** File Classifier *)

Lemma filter_twice {A} (p q : A -> bool) (l : list A) :
  List.filter q (List.filter p l) = List.filter (fun x => p x && q x) l.
Proof.
  induction l as [|x l IH]; [reflexivity |].
  cbn [List.filter]. destruct (p x); cbn [List.filter andb]; [| exact IH].
  destruct (q x); rewrite IH; reflexivity.
Qed.

Lemma mem_filter (p : string -> bool) (l : list string) (x : string) :
  In x l -> Str.mem x (List.filter p l) = p x.
Proof.
  intros Hin. unfold Str.mem.
  destruct (p x) eqn:Hp.
  - apply existsb_exists. exists x. split; [| apply String.eqb_refl].
    apply filter_In. auto.
  - apply not_true_is_false. intros H.
    apply existsb_exists in H as (y & Hy & Heq).
    apply String.eqb_eq in Heq. subst y.
    apply filter_In in Hy as [_ Hy]. congruence.
Qed.

(** Removing the members of [osxbug] is filtering on the prefix test. *)
Lemma cafiles26_filter (l : list string) :
  cafiles26 l = List.filter (fun s => negb (hidden s)) (cafiles23 l).
Proof.
  unfold cafiles26. apply filter_ext_in. intros x Hx.
  unfold osxbug. rewrite (mem_filter _ _ _ Hx). reflexivity.
Qed.

Lemma cafiles27_filter (l : list string) :
  cafiles27 l = List.filter candidate l.
Proof.
  unfold cafiles27. rewrite cafiles26_filter. unfold cafiles23, convertedfiles2.
  rewrite !filter_twice. apply filter_ext. intros s. unfold candidate.
  rewrite !andb_assoc. reflexivity.
Qed.

Lemma controlfile_filter (l : list string) :
  controlfile l
  = List.filter (fun s => candidate s && Str.contains "control" s) l.
Proof. unfold controlfile. rewrite cafiles27_filter. apply filter_twice. Qed.

Lemma cafiles32_filter (l : list string) :
  cafiles32 l
  = List.filter (fun s => candidate s && negb (Str.contains "control" s)) l.
Proof. unfold cafiles32. rewrite cafiles27_filter. apply filter_twice. Qed.

Lemma UVfile_filter (l : list string) :
  UVfile l
  = List.filter
      (fun s => candidate s && negb (Str.contains "control" s)
                && Str.contains "UV" s) l.
Proof. unfold UVfile. rewrite cafiles32_filter. apply filter_twice. Qed.

Lemma cafiles_filter (l : list string) :
  cafiles l
  = List.filter
      (fun s => candidate s && negb (Str.contains "control" s)
                && negb (Str.contains "UV" s)) l.
Proof. unfold cafiles. rewrite cafiles32_filter. apply filter_twice. Qed.

Lemma filter_Permutation_bool {A} (p : A -> bool) (l l' : list A) :
  Permutation l l' -> Permutation (List.filter p l) (List.filter p l').
Proof.
  induction 1 as [| x l l' _ IH | x y l | l l' l'' _ IH1 _ IH2];
    cbn [List.filter].
  - constructor.
  - destruct (p x); [constructor |]; exact IH.
  - destruct (p x), (p y); try reflexivity. constructor.
  - etransitivity; eassumption.
Qed.

Lemma encode_all_ascii (l : list string) :
  Forall (fun s => Str.is_ascii s = true) l -> encode_all l = Ok l.
Proof.
  induction 1 as [|x l Hx _ IH]; [reflexivity |].
  cbn [encode_all]. unfold Str.encode_utf8. rewrite Hx.
  cbn [mbind result_bind]. rewrite IH. reflexivity.
Qed.

Lemma prefix_dot_underscore (h : string) :
  String.prefix "._" h = true -> exists t, h = String "." (String "_" t).
Proof.
  intros Hp. destruct h as [|a h]; [discriminate Hp |].
  cbn [String.prefix] in Hp.
  destruct (ascii_dec "." a) as [Ha |]; [| discriminate].
  destruct h as [|b h]; [discriminate Hp |].
  cbn [String.prefix] in Hp.
  destruct (ascii_dec "_" b) as [Hb |]; [| discriminate].
  subst a b. exists h. reflexivity.
Qed.

Lemma hidden_prefix (h : string) :
  String.prefix "._" h = true -> hidden h = true.
Proof.
  intros Hp. destruct (prefix_dot_underscore h Hp) as [t ->].
  unfold hidden. apply andb_true_intro. split.
  - unfold Str.slice, Str.len, Str.clamp. cbn [String.length].
    replace (Z.min 0 _) with 0 by lia.
    replace (Z.min 2 _) with 2 by lia.
    change (0 <? 0) with false. change (2 <? 0) with false. cbn iota.
    change (Z.to_nat (2 - 0)) with 2%nat. destruct t; reflexivity.
  - unfold Str.contains. cbn [Str.find_nat]. rewrite Hp. reflexivity.
Qed.

Lemma candidate_hidden (h : string) :
  String.prefix "._" h = true -> candidate h = false.
Proof.
  intros H. unfold candidate. rewrite (hidden_prefix h H).
  cbn [negb]. rewrite andb_false_r. reflexivity.
Qed.

(** C7. A directory that holds exactly control_dt_1.txt, UV_dt_1.txt,
    dt_2_Values.txt and one hidden artifact (a resource-fork file, that
    is any name that begins with "._", or .DS_Store), listed in any
    order, is classified into exactly one control file, exactly one UV
    file and exactly one recording, and the artifact is in none of the
    three. *)
Theorem classifier_scenario (fs : filesystem) (h : string) :
  String.prefix "._" h = true \/ h = ".DS_Store" ->
  Str.is_ascii h = true ->
  Permutation (listdir_files fs)
    ["control_dt_1.txt"; "UV_dt_1.txt"; "dt_2_Values.txt"; h] ->
  exists names,
    convertedfiles fs = Ok names
    /\ controlfile names = ["control_dt_1.txt"]
    /\ UVfile names = ["UV_dt_1.txt"]
    /\ cafiles names = ["dt_2_Values.txt"]
    /\ ~ In h (controlfile names ++ UVfile names ++ cafiles names).
Proof.
  intros Hp Hascii Hperm. exists (listdir_files fs).
  assert (Hh : candidate h = false).
  { destruct Hp as [Hp | ->]; [apply candidate_hidden, Hp | reflexivity]. }
  assert (Hfilter : forall (p : string -> bool) (x : string),
            Permutation
              (List.filter p
                 ["control_dt_1.txt"; "UV_dt_1.txt"; "dt_2_Values.txt"; h])
              [x] ->
            List.filter p (listdir_files fs) = [x]).
  { intros p x Hx. apply Permutation_length_1_inv. symmetry.
    etransitivity; [| exact Hx]. apply filter_Permutation_bool, Hperm. }
  split; [| split; [| split; [| split]]].
  - unfold convertedfiles. apply encode_all_ascii.
    apply (Permutation_Forall (Permutation_sym Hperm)).
    repeat constructor. exact Hascii.
  - rewrite controlfile_filter. apply Hfilter.
    cbn [List.filter]. rewrite Hh. reflexivity.
  - rewrite UVfile_filter. apply Hfilter.
    cbn [List.filter]. rewrite Hh. reflexivity.
  - rewrite cafiles_filter. apply Hfilter.
    cbn [List.filter]. rewrite Hh. reflexivity.
  - rewrite controlfile_filter, UVfile_filter, cafiles_filter.
    rewrite !in_app_iff, !filter_In, Hh. cbn [andb].
    intros [[_ H] | [[_ H] | [_ H]]]; discriminate H.
Qed.

Lemma classifier_scenario_witness :
  exists names,
    convertedfiles
      {| top := [("._dt_2_Values.txt", []); ("dt_2_Values.txt", []);
                 ("UV_dt_1.txt", []); ("control_dt_1.txt", [])];
         sub := [] |} = Ok names
    /\ controlfile names = ["control_dt_1.txt"]
    /\ UVfile names = ["UV_dt_1.txt"]
    /\ cafiles names = ["dt_2_Values.txt"]
    /\ ~ In "._dt_2_Values.txt"
           (controlfile names ++ UVfile names ++ cafiles names).
Proof.
  apply classifier_scenario; [left; reflexivity | reflexivity |].
  cbn [listdir_files top map fst].
  apply Permutation_rev
    with (l := ["._dt_2_Values.txt"; "dt_2_Values.txt"; "UV_dt_1.txt";
                "control_dt_1.txt"]).
Defined.

(** C8 (as the code has it). With no file matching the control (or the
    UV) designation, taking element 0 of the empty match list aborts the
    run with IndexError.  With one match or more, no error is raised:
    the first match in listing order is loaded, and every name matching
    either designation is dropped from the recordings. *)
Theorem designation_takes_first_match (fs : filesystem)
    (names : list string) :
  convertedfiles fs = Ok names ->
  (controlfile names = [] -> run fs = Raise IndexError)
  /\ (forall f rest,
        controlfile names = f :: rest ->
        load_control fs names = genfromtxt fs f)
  /\ (forall control,
        load_control fs names = Ok control ->
        UVfile names = [] -> run fs = Raise IndexError)
  /\ (forall f rest,
        UVfile names = f :: rest ->
        load_UV fs names
        = (UV ← genfromtxt fs f; norm ← UVnorm UV; savetxt fs "UV.csv" norm))
  /\ (forall s,
        In s (cafiles names) ->
        Str.contains "control" s = false /\ Str.contains "UV" s = false).
Proof.
  intros Hnames. split; [| split; [| split; [| split]]].
  - intros H0. unfold run. rewrite Hnames. cbn [mbind result_bind].
    unfold load_control. rewrite H0. reflexivity.
  - intros f rest Hf. unfold load_control. rewrite Hf. reflexivity.
  - intros control Hc H0. unfold run. rewrite Hnames.
    cbn [mbind result_bind]. rewrite Hc. cbn [mbind result_bind].
    unfold load_UV. rewrite H0. reflexivity.
  - intros f rest Hf. unfold load_UV. rewrite Hf. reflexivity.
  - intros s H. rewrite cafiles_filter in H. apply filter_In in H as [_ H].
    apply andb_prop in H as [H HUV]. apply andb_prop in H as [_ Hcontrol].
    split; apply negb_true_iff; assumption.
Qed.

Lemma designation_takes_first_match_witness :
  (controlfile (listdir_files two_controls_dir) = []
   -> run two_controls_dir = Raise IndexError)
  /\ (forall f rest,
        controlfile (listdir_files two_controls_dir) = f :: rest ->
        load_control two_controls_dir (listdir_files two_controls_dir)
        = genfromtxt two_controls_dir f)
  /\ (forall control,
        load_control two_controls_dir (listdir_files two_controls_dir)
        = Ok control ->
        UVfile (listdir_files two_controls_dir) = [] ->
        run two_controls_dir = Raise IndexError)
  /\ (forall f rest,
        UVfile (listdir_files two_controls_dir) = f :: rest ->
        load_UV two_controls_dir (listdir_files two_controls_dir)
        = (UV ← genfromtxt two_controls_dir f;
           norm ← UVnorm UV;
           savetxt two_controls_dir "UV.csv" norm))
  /\ (forall s,
        In s (cafiles (listdir_files two_controls_dir)) ->
        Str.contains "control" s = false /\ Str.contains "UV" s = false).
Proof.
  apply (designation_takes_first_match two_controls_dir). reflexivity.
Defined.

(** C8, the claim as stated, fails on a directory with two control
    files: both match, no error is raised, the first one listed becomes
    the baseline and the run completes. *)
Lemma two_controls_raise_nothing :
  controlfile (listdir_files two_controls_dir)
  = ["control_dt_1.txt"; "control_dt_2.txt"]
  /\ load_control two_controls_dir (listdir_files two_controls_dir)
     = Ok (Arr1 (of_Z <$> [1; 1]))
  /\ exists o, run two_controls_dir = Ok o
               /\ out_control o = Arr1 (of_Z <$> [1; 1]).
Proof.
  split; [reflexivity |]. split; [reflexivity |].
  eexists. split; [vm_compute; reflexivity | reflexivity].
Qed.

(** ** Rate extraction *)

Lemma sign_not_digit (c : ascii) :
  Re.is_sign c = true -> Re.is_digit c = false.
Proof.
  unfold Re.is_sign. intros H. apply orb_prop in H as [H | H];
    apply Ascii.eqb_eq in H; subst c; reflexivity.
Qed.

Lemma many_nondigit (s : string) :
  starts_without_digit s = true ->
  Re.many Re.is_digit s = (EmptyString, s).
Proof.
  destruct s as [|c s]; [reflexivity |]. cbn [starts_without_digit Re.many].
  intros H. apply negb_true_iff in H. rewrite H. reflexivity.
Qed.

(** No match starts at a character that is not a digit, unless it is a
    sign with a digit behind it. *)
Lemma match_here_None (c : ascii) (r : string) :
  Re.is_digit c = false ->
  starts_without_digit r = true ->
  Re.match_here (String c r) = None.
Proof.
  intros Hc Hr. unfold Re.match_here. cbn [Re.opt].
  destruct (Re.is_sign c).
  - rewrite (many_nondigit r Hr). reflexivity.
  - cbn [Re.many]. rewrite Hc. reflexivity.
Qed.

Lemma match_here_digit (c : ascii) (r : string) :
  Re.is_digit c = true -> exists m, Re.match_here (String c r) = Some m.
Proof.
  intros Hc. unfold Re.match_here. cbn [Re.opt].
  destruct (Re.is_sign c) eqn:Hs.
  { apply sign_not_digit in Hs. congruence. }
  cbn [Re.many]. rewrite Hc.
  destruct (Re.many Re.is_digit r) as [d1 s2]. cbn [Re.is_empty].
  destruct (Re.opt Re.is_dot s2) as [dot s3].
  destruct (Re.many Re.is_digit s3) as [d2 s4].
  destruct (Re.opt Re.is_exp s4) as [e s5].
  destruct (Re.opt Re.is_sign s5) as [sg2 s6].
  destruct (Re.many Re.is_digit s6) as [d3 s7]. eauto.
Qed.

(** The pattern finds nothing exactly in the texts without a digit. *)
Lemma findall_nil_iff (s : string) :
  Re.findall s = [] <-> no_digit s = true.
Proof.
  unfold Re.findall. induction s as [|c s IH]; [tauto |].
  cbn [Re.findall_from no_digit]. split.
  - intros H. destruct (Re.is_digit c) eqn:Hc.
    + destruct (match_here_digit c s Hc) as [m Hm]. rewrite Hm in H.
      discriminate H.
    + destruct (Re.match_here (String c s)); [discriminate H |].
      apply IH in H. rewrite H. reflexivity.
  - intros H. apply andb_prop in H as [Hc Hs]. apply negb_true_iff in Hc.
    rewrite match_here_None; [apply IH, Hs | exact Hc |].
    destruct s as [|d s]; [reflexivity |]. cbn [no_digit] in Hs.
    apply andb_prop in Hs as [Hd _]. exact Hd.
Qed.

(** Leading characters without a digit are passed over one by one. *)
Lemma findall_skip_prefix (q w : string) :
  no_digit q = true ->
  starts_without_digit w = true ->
  Re.findall (q ++ w) = Re.findall w.
Proof.
  unfold Re.findall. intros Hq Hw. induction q as [|c q IH]; [reflexivity |].
  cbn [no_digit] in Hq. apply andb_prop in Hq as [Hc Hq].
  apply negb_true_iff in Hc.
  change (String c q ++ w)%string with (String c (q ++ w)).
  cbn [Re.findall_from]. rewrite match_here_None; [apply IH, Hq | exact Hc |].
  destruct q as [|d q]; [exact Hw |]. cbn [no_digit] in Hq.
  apply andb_prop in Hq as [Hd _]. exact Hd.
Qed.

Lemma substring_all (s : string) :
  String.substring 0 (String.length s) s = s.
Proof.
  induction s as [|c s IH]; [reflexivity |].
  cbn [String.length String.substring]. f_equal. exact IH.
Qed.

Lemma substring_app_r (a b : string) :
  String.substring (String.length a) (String.length b) (a ++ b) = b.
Proof.
  induction a as [|c a IH]; [apply substring_all |]. exact IH.
Qed.

Lemma string_length_app (a b : string) :
  String.length (a ++ b) = (String.length a + String.length b)%nat.
Proof.
  induction a as [|c a IH]; [reflexivity |].
  change (String c a ++ b)%string with (String c (a ++ b)).
  cbn [String.length Nat.add]. f_equal. exact IH.
Qed.

(** [s[i:len(s)]] drops the first [i] characters. *)
Lemma slice_from_length (a b : string) :
  Str.slice (a ++ b) (Z.of_nat (String.length a)) (Str.len (a ++ b)) = b.
Proof.
  unfold Str.slice, Str.len, Str.clamp. rewrite string_length_app.
  destruct (Z.ltb_spec (Z.of_nat (String.length a)) 0) as [H | _]; [lia |].
  destruct (Z.ltb_spec (Z.of_nat (String.length a + String.length b)) 0)
    as [H | _]; [lia |].
  rewrite Z.min_id, Z.min_l by lia.
  replace (Z.to_nat (Z.of_nat (String.length a + String.length b)
                     - Z.of_nat (String.length a)))
    with (String.length b) by lia.
  rewrite Nat2Z.id. apply substring_app_r.
Qed.

(** The first occurrence of [sub] in [p ++ sub ++ r] begins inside [p]
    or right behind it. *)
Lemma find_nat_app (sub p w : string) :
  String.prefix sub w = true ->
  exists a q, p = (a ++ q)%string
              /\ Str.find_nat sub (p ++ w) = Some (String.length a).
Proof.
  intros Hw. induction p as [|c p IH].
  - exists EmptyString, EmptyString. split; [reflexivity |].
    change (EmptyString ++ w)%string with w.
    destruct w; cbn [Str.find_nat]; rewrite Hw; reflexivity.
  - change (String c p ++ w)%string with (String c (p ++ w)).
    cbn [Str.find_nat].
    destruct (String.prefix sub (String c (p ++ w))).
    + exists EmptyString, (String c p). split; reflexivity.
    + destruct IH as (a & q & -> & ->).
      exists (String c a), q. split; reflexivity.
Qed.

Lemma no_digit_app (a q : string) :
  no_digit (a ++ q) = true -> no_digit q = true.
Proof.
  induction a as [|c a IH]; [trivial |].
  change (String c a ++ q)%string with (String c (a ++ q)). cbn [no_digit].
  intros H. apply andb_prop in H as [_ H]. apply IH, H.
Qed.

Lemma string_app_assoc (a b c : string) :
  ((a ++ b) ++ c = a ++ (b ++ c))%string.
Proof.
  induction a as [|x a IH]; [reflexivity |].
  change (String x a ++ b ++ c)%string with (String x (a ++ b ++ c)).
  rewrite <- IH. reflexivity.
Qed.

(** When the marker is there, the searched text runs from its first
    occurrence to the end of the name. *)
Lemma searched_app (p w : string) :
  String.prefix "_dt" w = true ->
  exists a q, p = (a ++ q)%string /\ searched (p ++ w) = (q ++ w)%string.
Proof.
  intros Hw. destruct (find_nat_app "_dt" p w Hw) as (a & q & -> & Hfind).
  exists a, q. split; [reflexivity |].
  unfold searched, Str.find. rewrite Hfind. cbn [Str.index_or_minus1].
  rewrite string_app_assoc. apply slice_from_length.
Qed.

Lemma float_raises_ValueError (m : string) (e : exn) :
  Re.float m = Raise e -> e = ValueError.
Proof.
  unfold Re.float.
  destruct (Re.opt Re.is_sign m) as [sg s1].
  destruct (Re.many Re.is_digit s1) as [ip s2].
  destruct (Re.opt Re.is_dot s2) as [dot s3].
  destruct (Re.many Re.is_digit s3) as [fp s4].
  destruct (Re.is_empty ip && Re.is_empty fp); [congruence |].
  destruct (Re.opt Re.is_exp s4) as [ex s5].
  destruct (Re.is_empty ex).
  - destruct (Re.is_empty s5); congruence.
  - destruct (Re.opt Re.is_sign s5) as [sg2 s6].
    destruct (Re.many Re.is_digit s6) as [x s7].
    destruct (Re.is_empty x || negb (Re.is_empty s7)); congruence.
Qed.

(** C4 (as the code has it). The marker is "_dt".  For a file name
    that ends in "_dt_5_Values.txt" after a prefix without digits (such
    as "a_dt_5_Values.txt") the rate extracted is 5.0, the first match
    of the pattern in the text from the marker on.  Extraction fails
    only with IndexError, when the searched text holds no digit, or with
    ValueError, when [float] rejects the first match.  The name
    "dt_5_Values.txt" does not hold the marker: the searched text is its
    last character and extraction raises IndexError. *)
Theorem timerate_from_marker :
  (forall p, no_digit p = true ->
             timerate (p ++ "_dt_5_Values.txt") = Ok (of_Z 5))
  /\ (forall s e,
        timerate s = Raise e ->
        (e = IndexError /\ no_digit (searched s) = true)
        \/ (e = ValueError
            /\ exists m rest, Re.findall (searched s) = m :: rest
                              /\ Re.float m = Raise ValueError))
  /\ (forall s v,
        timerate s = Ok v ->
        exists m rest, Re.findall (searched s) = m :: rest
                       /\ Re.float m = Ok v)
  /\ searched "dt_5_Values.txt" = "t"
  /\ timerate "dt_5_Values.txt" = Raise IndexError.
Proof.
  split; [| split; [| split; [| split; reflexivity]]].
  - intros p Hp. unfold timerate. fold (searched (p ++ "_dt_5_Values.txt")).
    destruct (searched_app p "_dt_5_Values.txt" eq_refl) as (a & q & -> & ->).
    rewrite findall_skip_prefix;
      [reflexivity | exact (no_digit_app a q Hp) | reflexivity].
  - intros s e. unfold timerate. fold (searched s).
    destruct (Re.findall (searched s)) as [|m rest] eqn:Hall;
      cbn [item0 mbind result_bind].
    + intros [= <-]. left. split; [reflexivity |].
      apply findall_nil_iff, Hall.
    + intros Hm. right. pose proof (float_raises_ValueError m e Hm) as ->.
      eauto.
  - intros s v. unfold timerate. fold (searched s).
    destruct (Re.findall (searched s)) as [|m rest] eqn:Hall;
      cbn [item0 mbind result_bind]; [discriminate | eauto].
Qed.

Lemma timerate_from_marker_witness :
  timerate ("a" ++ "_dt_5_Values.txt") = Ok (of_Z 5).
Proof. apply (proj1 timerate_from_marker). reflexivity. Defined.

(** C4, the claim as stated, fails: for "dt_5_Values.txt" rate
    extraction does not return 5.0, it raises IndexError. *)
Lemma timerate_dt_5_Values_raises :
  timerate "dt_5_Values.txt" = Raise IndexError
  /\ timerate "dt_5_Values.txt" <> Ok (of_Z 5).
Proof. split; [reflexivity | discriminate]. Qed.

(** ** Normalizer *)

(** The length of a broadcast result, when there is one. *)
Lemma broadcast_length f (a b out : ndarray) :
  broadcast f a b = Ok out ->
  match a, b with
  | Arr0 _, Arr0 _ => exists x, out = Arr0 x
  | Arr0 _, Arr1 l => exists k, out = Arr1 k /\ length k = length l
  | Arr1 l, Arr0 _ => exists k, out = Arr1 k /\ length k = length l
  | Arr1 l1, Arr1 l2 =>
      exists k, out = Arr1 k
                /\ length k = if (length l1 =? 1)%nat then length l2
                              else length l1
  end.
Proof.
  destruct a as [x | l1], b as [y | l2]; cbn [broadcast].
  - intros [= <-]. eauto.
  - intros [= <-]. eexists. split; [reflexivity | apply length_map].
  - intros [= <-]. eexists. split; [reflexivity | apply length_map].
  - destruct (Nat.eqb_spec (length l1) (length l2)) as [Heq | Hne].
    + intros [= <-]. eexists. split; [reflexivity |].
      rewrite length_zip_with. destruct (Nat.eqb_spec (length l1) 1); lia.
    + destruct l1 as [|x [|x' l1]].
      * destruct l2 as [|y [|y' l2]]; try discriminate.
        intros [= <-]. eexists. split; reflexivity.
      * intros [= <-]. eexists. split; [reflexivity |].
        cbn [length Nat.eqb]. apply length_map.
      * destruct l2 as [|y [|y' l2]]; try discriminate.
        intros [= <-]. eexists. split; [reflexivity |].
        cbn [length Nat.eqb map]. rewrite length_map. reflexivity.
Qed.

Lemma assoc_write (name : string) (d : data) (l : list (string * data)) :
  assoc name (write name d l) = Some d.
Proof.
  induction l as [|[k d'] l IH]; cbn [write assoc].
  - rewrite String.eqb_refl. reflexivity.
  - destruct (String.eqb name k) eqn:Hk; cbn [assoc]; rewrite Hk; auto.
Qed.

Lemma length_squeeze_ravel (rows : list float64) :
  length (ravel (squeeze rows)) = length rows.
Proof. rewrite ravel_squeeze. reflexivity. Qed.

Lemma squeeze_cases (rows : list float64) :
  (exists x, rows = [x] /\ squeeze rows = Arr0 x)
  \/ (length rows <> 1%nat /\ squeeze rows = Arr1 rows).
Proof.
  destruct rows as [|x [|x' rows]].
  - right. split; [discriminate | reflexivity].
  - left. eauto.
  - right. split; [discriminate | reflexivity].
Qed.

(** The rows [dF_F] returns for a recording loaded from [rows]. *)
Lemma dF_F_length (rows : list float64) (control out : ndarray) :
  dF_F (squeeze rows) control = Ok out ->
  match out with
  | Arr0 _ => True
  | Arr1 k =>
      (length rows <> 1%nat -> length k = length rows)
      /\ (length rows = 1%nat -> length k = length (ravel control))
  end.
Proof.
  unfold dF_F. intros H. apply bind_Ok_inv in H as (diff & Hdiff & Hout).
  apply broadcast_length in Hdiff. apply broadcast_length in Hout.
  destruct (squeeze_cases rows) as [(x & -> & Hsq) | (Hlen & Hsq)];
    rewrite Hsq in Hdiff; destruct control as [c | cs]; cbn [ravel length].
  - destruct Hdiff as [d ->]. destruct Hout as [o ->]. exact I.
  - destruct Hdiff as (k1 & -> & Hk1). destruct Hout as (k & -> & Hk).
    split; [congruence |]. intros _. rewrite Hk, Hk1.
    destruct (length cs =? 1)%nat; reflexivity.
  - destruct Hdiff as (k1 & -> & Hk1). destruct Hout as (k & -> & Hk).
    split; [intros _ | contradiction]. congruence.
  - destruct Hdiff as (k1 & -> & Hk1). destruct Hout as (k & -> & Hk).
    apply Nat.eqb_neq in Hlen. rewrite Hlen in Hk1. rewrite Hk1, Hlen in Hk.
    apply Nat.eqb_neq in Hlen. split; [intros _; exact Hk | contradiction].
Qed.

(** C9 (as the code has it). When the Normalizer writes a trace for a
    recording, the trace in the working directory has the length of the
    recording's signal sequence, provided the recording has other than
    exactly one sample.  A one-sample recording loads as a 0-d array,
    which numpy broadcasts over the control: its trace has the length of
    the control. *)
Theorem trace_length (control : ndarray) (fs fs' : filesystem)
    (g g' : option ndarray) (source_filename : string) :
  normalize_file control (fs, g) source_filename = Ok (fs', g') ->
  exists rows trace,
    read fs source_filename = Some rows
    /\ assoc (output_filename source_filename) (top fs') = Some trace
    /\ (length rows <> 1%nat -> length trace = length rows)
    /\ (length rows = 1%nat -> length trace = length (ravel control)).
Proof.
  unfold normalize_file. cbn [fst]. intros H.
  step H as rate _.
  step H as raw Hraw.
  step H as d Hd.
  step H as fs1 Hsave.
  injection H as <- _.
  unfold genfromtxt in Hraw.
  destruct (read fs source_filename) as [rows |]; [| discriminate].
  injection Hraw as <-.
  apply dF_F_length in Hd.
  destruct d as [x | k]; [discriminate Hsave |].
  injection Hsave as <-. cbn [top].
  exists rows, k. split; [reflexivity |]. split; [apply assoc_write |].
  exact Hd.
Qed.

Lemma trace_length_witness :
  exists rows trace,
    read four_sample_dir "a_dt_2_Values.txt" = Some rows
    /\ assoc (output_filename "a_dt_2_Values.txt")
         (top four_sample_dir_after) = Some trace
    /\ (length rows <> 1%nat -> length trace = length rows)
    /\ (length rows = 1%nat
        -> length trace = length (ravel (Arr1 (of_Z <$> [1; 1; 1; 1])))).
Proof.
  apply (trace_length (Arr1 (of_Z <$> [1; 1; 1; 1])) four_sample_dir
           four_sample_dir_after None
           (Some (Arr1 (of_Z <$> [1; 0; -1; 0])))).
  compute_done.
Defined.

(** C9, the claim as stated, fails on a recording of one sample next
    to a control of four: the run completes, and the trace written for
    the recording has four values. *)
Lemma one_sample_trace_has_four_values :
  exists o,
    run one_sample_dir = Ok o
    /\ read one_sample_dir "a_dt_2_Values.txt" = Some [of_Z 2]
    /\ output_filename "a_dt_2_Values.txt" = "2_.csv"
    /\ read (out_fs o) "2_.csv" = Some (of_Z <$> [1; 1; 1; 1]).
Proof.
  eexists. split; [vm_compute; reflexivity |].
  split; [reflexivity |]. split; [reflexivity |]. compute_done.
Qed.

(** ** Range Scanner *)

Section scanner.
Local Open Scope Qc_scope.

Variable fs : filesystem.

Lemma flt_finite (x y : Qc) : flt (Fin x) (Fin y) = true <-> x < y.
Proof. cbn [flt]. apply bool_decide_eq_true. Qed.

Lemma flt_finite_false (x y : Qc) : flt (Fin x) (Fin y) = false <-> y <= x.
Proof.
  cbn [flt]. rewrite bool_decide_eq_false. split.
  - apply Qcnot_lt_le.
  - apply Qcle_not_lt.
Qed.

Lemma headroom_grows (q : Qc) : 0 < q -> q < q * Q2Qc (11 # 10).
Proof.
  intros H. rewrite <- (Qcmult_1_r q) at 1.
  apply Qcmult_lt_mono_pos_l; [exact H | compute_done].
Qed.

(** One turn of the loop keeps [maxvalue] non-negative, never lowers
    it, and leaves it at or above the maximum just seen. *)
Lemma range_step_spec (maxvalue maxvalue' : float64) (d : ndarray) :
  nonneg maxvalue ->
  range_step maxvalue d = Ok maxvalue' ->
  exists m, np_max d = Ok m
            /\ nonneg maxvalue'
            /\ flt maxvalue' maxvalue = false
            /\ flt maxvalue' m = false.
Proof.
  intros Hnn. unfold range_step.
  destruct (np_max d) as [m | e]; cbn [mbind result_bind]; [| discriminate].
  intros H. exists m. split; [reflexivity |].
  unfold fgt in H. destruct (flt maxvalue m) eqn:Hlt.
  - injection H as <-.
    destruct maxvalue as [a | | |], m as [q | | |];
      try discriminate Hlt; try contradiction.
    + apply flt_finite in Hlt. cbn [nonneg] in Hnn.
      assert (Hq : 0 < q) by (eapply Qcle_lt_trans; eassumption).
      pose proof (headroom_grows q Hq) as Hgrow.
      unfold headroom, ratio. cbn [fmul nonneg].
      split; [| split].
      * apply Qclt_le_weak. eapply Qclt_trans; eassumption.
      * apply flt_finite_false. apply Qclt_le_weak.
        eapply Qclt_trans; eassumption.
      * apply flt_finite_false. apply Qclt_le_weak. exact Hgrow.
    + repeat split.
  - injection H as <-. split; [exact Hnn |]. split; [| exact Hlt].
    destruct maxvalue as [a | | |]; try contradiction; [| reflexivity].
    apply flt_finite_false, Qcle_refl.
Qed.

Lemma flt_false_trans (a b m : float64) :
  nonneg a -> nonneg b ->
  flt b a = false -> flt a m = false -> flt b m = false.
Proof.
  destruct a as [x | | |], b as [y | | |], m as [z | | |];
    cbn [nonneg]; try contradiction; try reflexivity; try discriminate;
    intros _ _.
  rewrite !flt_finite_false. intros H1 H2. eapply Qcle_trans; eassumption.
Qed.

(** After the loop [maxvalue] is non-negative, not below its seed, and
    not below the maximum of any file of the pass; each has been loaded. *)
Lemma scan_invariant (paths : list string)
    (maxvalue maxvalue' : float64) (g g' : option ndarray) :
  nonneg maxvalue ->
  for_each (scan_file fs) paths (maxvalue, g) = Ok (maxvalue', g') ->
  nonneg maxvalue'
  /\ flt maxvalue' maxvalue = false
  /\ Forall (fun p => exists d m,
               genfromtxt fs p = Ok d /\ np_max d = Ok m
               /\ flt maxvalue' m = false) paths.
Proof.
  revert maxvalue g. induction paths as [|p paths IH]; intros maxvalue g Hnn.
  - cbn [for_each]. intros [= <- <-]. split; [exact Hnn |]. split; [| constructor].
    destruct maxvalue as [a | | |]; try contradiction; [| reflexivity].
    apply flt_finite_false, Qcle_refl.
  - cbn [for_each]. intros H. step H as [mv1 g1] Hstep.
    unfold scan_file in Hstep. cbn [fst] in Hstep.
    step Hstep as d Hd.
    step Hstep as mv Hmv.
    injection Hstep as -> <-.
    destruct (range_step_spec _ _ _ Hnn Hmv) as (m & Hm & Hnn1 & Hge & Hcover).
    destruct (IH mv1 (Some d) Hnn1 H) as (Hnn' & Hge' & Hall).
    split; [exact Hnn' |]. split.
    + apply (flt_false_trans mv1); assumption.
    + constructor; [| exact Hall].
      exists d, m. repeat split; try assumption.
      apply (flt_false_trans mv1); assumption.
Qed.

(** The array the global [dF_F] holds after the loop is the last file
    of the pass. *)
Lemma scan_last (paths : list string) (p : string)
    (st st' : float64 * option ndarray) :
  for_each (scan_file fs) (paths ++ [p]) st = Ok st' ->
  exists d, genfromtxt fs p = Ok d /\ snd st' = Some d.
Proof.
  revert st. induction paths as [|p0 paths IH]; intros st.
  - cbn [app for_each]. intros H. step H as st1 Hstep.
    injection H as <-. unfold scan_file in Hstep.
    step Hstep as d Hd.
    step Hstep as mv _.
    injection Hstep as <-. eauto.
  - cbn [app for_each]. intros H. step H as st1 _.
    eapply IH, H.
Qed.

(** The minimum that the pass returns looks at its last file only. *)
Lemma minvalue_from_last_file (paths : list string)
    (p : string) (maxvalue minvalue : float64) (g : option ndarray)
    (range : float64 * float64) :
  range_scanner fs (paths ++ [p]) maxvalue minvalue g = Ok range ->
  exists d, genfromtxt fs p = Ok d
            /\ final_min minvalue (Some d) = Ok (snd range).
Proof.
  unfold range_scanner. intros H. step H as st Hst.
  step H as mn Hmn. injection H as <-.
  destruct (scan_last _ _ _ _ Hst) as (d & Hd & Hlast).
  exists d. split; [exact Hd |]. rewrite <- Hlast. exact Hmn.
Qed.

(** The maximum the loop ends with is its seed or 1.1 times the
    maximum of one of the files. *)
Lemma maxvalue_is_scaled_file_max (paths : list string)
    (maxvalue maxvalue' : float64) (g g' : option ndarray) :
  for_each (scan_file fs) paths (maxvalue, g) = Ok (maxvalue', g') ->
  maxvalue' = maxvalue
  \/ exists p d m, In p paths /\ genfromtxt fs p = Ok d
                   /\ np_max d = Ok m /\ maxvalue' = fmul m headroom.
Proof.
  revert maxvalue g. induction paths as [|p paths IH]; intros maxvalue g.
  - cbn [for_each]. intros [= <- <-]. left. reflexivity.
  - cbn [for_each]. intros H. step H as [mv1 g1] Hstep.
    unfold scan_file in Hstep. cbn [fst] in Hstep.
    step Hstep as d Hd.
    step Hstep as mv Hmv.
    injection Hstep as -> <-.
    destruct (IH _ _ H) as [-> | (p' & d' & m' & Hin & Hd' & Hm' & ->)].
    + unfold range_step in Hmv.
      destruct (np_max d) as [m | e] eqn:Hm; cbn [mbind result_bind] in Hmv;
        [| discriminate].
      destruct (fgt m maxvalue); injection Hmv as <-; [right | left; reflexivity].
      exists p, d, m. repeat split; try assumption. left. reflexivity.
    + right. exists p', d', m'. repeat split; try assumption. right. exact Hin.
Qed.

(** When every file of the pass holds finite values, none above 0, the
    maximum stays at the seed 0. *)
Lemma maxvalue_seed_kept (paths : list string)
    (g : option ndarray) :
  Forall (fun p => exists l, l <> [] /\ read fs p = Some (Fin <$> l)
                             /\ Forall (fun x => x <= 0) l) paths ->
  exists g', for_each (scan_file fs) paths (of_Z 0, g) = Ok (of_Z 0, g').
Proof.
  intros Hall. revert g. induction Hall as [|p paths Hp _ IH]; intros g.
  - exists g. reflexivity.
  - destruct Hp as (l & Hne & Hread & Hle).
    destruct (is_max_exists l Hne) as [m Hm].
    assert (Hnot : fgt (Fin m) (of_Z 0) = false).
    { unfold fgt, of_Z. apply flt_finite_false.
      rewrite Forall_forall in Hle. apply Hle. exact (proj1 Hm). }
    assert (Hstep : scan_file fs (of_Z 0, g) p
                    = Ok (of_Z 0, Some (squeeze (Fin <$> l)))).
    { unfold scan_file, genfromtxt. rewrite Hread.
      cbn [mbind result_bind fst]. unfold range_step.
      rewrite (np_max_finite l m Hm). cbn [mbind result_bind].
      rewrite Hnot. reflexivity. }
    cbn [for_each]. rewrite Hstep. cbn [mbind result_bind]. apply IH.
Qed.

End scanner.

(** C2 (the code at the failing input). Two trace files holding [0, 1]
    and [0, 1.05], scanned in this order: the first sets the maximum to
    1.1, which the 1.05 of the second does not exceed, so the pass ends
    with 1.1.  The true maximum over all trace values is 1.05, and 1.1
    times it is 1.155.  The same happens in a whole run on a batch with
    one recording whose trace is [0, 1.05], when UV.csv (maximum 1) is
    listed before the trace. *)
Theorem maxvalue_kept_from_first_file :
  csvz scan_order_dir
  = ["/where/your/files/are/a.csv"; "/where/your/files/are/b.csv"]
  /\ range_scanner scan_order_dir (csvz scan_order_dir) (of_Z 0) (of_Z 0)
       None
     = Ok (ratio 11 10, of_Z 0)
  /\ is_max (Q2Qc (21 # 20)) [Q2Qc 0; Q2Qc 1; Q2Qc 0; Q2Qc (21 # 20)]
  /\ fmul (ratio 21 20) headroom = ratio 231 200
  /\ ratio 231 200 <> ratio 11 10
  /\ exists o,
       run headroom_dir = Ok o
       /\ out_csvz o
          = ["/where/your/files/are/UV.csv"; "/where/your/files/are/1_x.csv"]
       /\ read (out_fs o) "UV.csv" = Some [of_Z 0; of_Z 1]
       /\ read (out_fs o) "1_x.csv" = Some [of_Z 0; ratio 21 20]
       /\ out_maxvalue o = ratio 11 10.
Proof.
  split; [reflexivity |]. split; [compute_done |]. split.
  { split; [compute_done |]. intros x Hx.
    repeat (apply elem_of_cons in Hx as [-> | Hx]; [compute_done |]).
    inversion Hx. }
  split; [compute_done |]. split; [compute_done |].
  eexists. split; [vm_compute; reflexivity |].
  split; [reflexivity |]. repeat split; compute_done.
Qed.

(** C3 (the code at the failing input). Two trace files with values in
    [-0.2, 0.8] and [-0.1, 1.2], scanned in this order: the minimum is
    looked for once, after the loop, in the file loaded last, and the
    pass ends with -0.1.  The minimum over all trace values is -0.2.
    The same happens in a whole run on a batch of two recordings with
    these traces. *)
Theorem minvalue_taken_from_last_file :
  csvz two_traces_dir
  = ["/where/your/files/are/a.csv"; "/where/your/files/are/b.csv"]
  /\ range_scanner two_traces_dir (csvz two_traces_dir) (of_Z 0) (of_Z 0)
       None
     = Ok (ratio 33 25, ratio (-1) 10)
  /\ is_min (Q2Qc (-1 # 5))
       [Q2Qc (-1 # 5); Q2Qc (4 # 5); Q2Qc (-1 # 10); Q2Qc (6 # 5)]
  /\ ratio (-1) 10 <> ratio (-1) 5
  /\ exists o,
       run two_recordings_dir = Ok o
       /\ out_csvz o
          = ["/where/your/files/are/UV.csv"; "/where/your/files/are/1_x.csv";
             "/where/your/files/are/1_y.csv"]
       /\ read (out_fs o) "1_x.csv" = Some [ratio (-1) 5; ratio 4 5]
       /\ read (out_fs o) "1_y.csv" = Some [ratio (-1) 10; ratio 6 5]
       /\ out_minvalue o = ratio (-1) 10
       /\ out_maxvalue o = ratio 33 25.
Proof.
  split; [reflexivity |]. split; [compute_done |]. split.
  { split; [compute_done |]. intros x Hx.
    repeat (apply elem_of_cons in Hx as [-> | Hx]; [compute_done |]).
    inversion Hx. }
  split; [compute_done |].
  eexists. split; [vm_compute; reflexivity |].
  split; [reflexivity |]. repeat split; compute_done.
Qed.

(** ** The .csv files of the working directory *)

Lemma write_keys (name : string) (d : data) (l : list (string * data)) :
  In name (map fst (write name d l))
  /\ forall k, In k (map fst l) -> In k (map fst (write name d l)).
Proof.
  induction l as [|[k0 d0] l [IHin IHkeep]]; cbn [write map fst].
  - split; [left; reflexivity | intros k []].
  - destruct (String.eqb_spec name k0) as [-> | Hne]; cbn [map fst In].
    + split; [left; reflexivity | trivial].
    + split; [right; exact IHin |].
      intros k [Hk | Hk]; [left; exact Hk | right; apply IHkeep, Hk].
Qed.

Lemma savetxt_keys (fs fs' : filesystem) (name : string) (a : ndarray) :
  savetxt fs name a = Ok fs' ->
  In name (map fst (top fs'))
  /\ forall k, In k (map fst (top fs)) -> In k (map fst (top fs')).
Proof.
  destruct a as [x | l]; [discriminate |]. intros [= <-]. cbn [top].
  apply write_keys.
Qed.

(** The Normalizer removes no file from the working directory. *)
Lemma normalize_keeps_files (control : ndarray) (l : list string)
    (st st' : filesystem * option ndarray) (k : string) :
  for_each (normalize_file control) l st = Ok st' ->
  In k (map fst (top (fst st))) -> In k (map fst (top (fst st'))).
Proof.
  revert st. induction l as [|src l IH]; intros st; cbn [for_each].
  - intros [= <-]. trivial.
  - intros H Hk. step H as st1 Hstep.
    apply (IH st1 H). unfold normalize_file in Hstep.
    step Hstep as rate _.
    step Hstep as raw _.
    step Hstep as d _.
    step Hstep as fs1 Hsave.
    injection Hstep as <-. cbn [fst].
    exact (proj2 (savetxt_keys _ _ _ _ Hsave) k Hk).
Qed.

(** [csvz] lists every name ending in ".csv" of every directory walked. *)
Lemma csvz_complete (fs : filesystem) (root name : string)
    (files : list string) :
  In (root, files) (os_walk fs) ->
  In name files ->
  Str.endswith ".csv" name = true ->
  In (path_join root name) (csvz fs).
Proof.
  intros Hroot Hname Hcsv. unfold csvz. apply in_flat_map.
  exists (root, files). split; [exact Hroot |]. cbn [fst snd].
  apply in_map, filter_In. split; assumption.
Qed.

(** C10 (the code at the failing input). A working directory with a
    file a.csv and a sub-directory [old] that holds another a.csv: line
    56 lists both paths and the Range Scanner loads each by its path
    (the 7 of old/a.csv sets the maximum to 7.7), but the Plotter,
    called with the path of old/a.csv, strips the directory (line 68)
    and opens the a.csv of the working directory.  The run completes
    with three plots, a.csv drawn twice and UV.csv once; no plot shows
    the values of old/a.csv. *)
Theorem nested_csv_is_not_plotted :
  exists o,
    run nested_dir = Ok o
    /\ out_csvz o
       = ["/where/your/files/are/a.csv"; "/where/your/files/are/UV.csv";
          "/where/your/files/are/old/a.csv"]
    /\ In "/where/your/files/are/old/a.csv" (out_csvz o)
    /\ read (out_fs o) "/where/your/files/are/old/a.csv"
       = Some (of_Z <$> [5; 6; 7])
    /\ out_maxvalue o = ratio 77 10
    /\ map title (out_plots o) = ["a.csv"; "UV.csv"; "a.csv"]
    /\ map image (out_plots o) = ["a.png"; "UV.png"; "a.png"]
    /\ map ydata (out_plots o)
       = [of_Z <$> [0; 2]; of_Z <$> [0; 1]; of_Z <$> [0; 2]]
    /\ ~ In (of_Z <$> [5; 6; 7]) (map ydata (out_plots o)).
Proof.
  eexists. split; [vm_compute; reflexivity |].
  split; [reflexivity |].
  split; [vm_compute; tauto |].
  split; [compute_done |]. split; [compute_done |].
  split; [reflexivity |]. split; [reflexivity |]. split; [compute_done |].
  intros H. apply list_elem_of_In in H. revert H. compute_done.
Qed.

(** * Further properties *)

(** ** Occurrences of a text in a name *)

Lemma prefix_app_iff (sub s : string) :
  String.prefix sub s = true <-> exists b, s = (sub ++ b)%string.
Proof.
  revert s. induction sub as [|c sub IH]; intros s.
  - split; [intros _; exists s; reflexivity | intros _; destruct s; reflexivity].
  - destruct s as [|d s].
    + split; [discriminate | intros [b Hb]; discriminate Hb].
    + cbn [String.prefix]. destruct (ascii_dec c d) as [<- | Hne].
      * rewrite IH. split; intros [b Hb]; exists b.
        -- change (String c sub ++ b)%string with (String c (sub ++ b)).
           f_equal. exact Hb.
        -- change (String c sub ++ b)%string with (String c (sub ++ b)) in Hb.
           injection Hb as Hb. exact Hb.
      * split; [discriminate |]. intros [b Hb].
        change (String c sub ++ b)%string with (String c (sub ++ b)) in Hb.
        injection Hb as Hcd _. congruence.
Qed.

Lemma find_nat_occurs (sub s : string) (i : nat) :
  Str.find_nat sub s = Some i ->
  exists a b, s = (a ++ sub ++ b)%string /\ String.length a = i.
Proof.
  revert i. induction s as [|c s IH]; intros i; cbn [Str.find_nat].
  - destruct (String.prefix sub "") eqn:Hp; [| discriminate].
    intros [= <-]. apply prefix_app_iff in Hp as [b Hb].
    exists EmptyString, b. split; [exact Hb | reflexivity].
  - destruct (String.prefix sub (String c s)) eqn:Hp.
    + intros [= <-]. apply prefix_app_iff in Hp as [b Hb].
      exists EmptyString, b. split; [exact Hb | reflexivity].
    + destruct (Str.find_nat sub s) as [j |]; [| discriminate].
      intros [= <-]. destruct (IH j eq_refl) as (a & b & -> & <-).
      exists (String c a), b. split; reflexivity.
Qed.

Lemma occurs_find_nat (sub s : string) :
  occurs sub s -> exists i, Str.find_nat sub s = Some i.
Proof.
  intros (a & b & ->). induction a as [|c a IH].
  - change (EmptyString ++ sub ++ b)%string with (sub ++ b)%string.
    assert (Hp : String.prefix sub (sub ++ b) = true)
      by (apply prefix_app_iff; eauto).
    destruct (sub ++ b)%string; cbn [Str.find_nat]; rewrite Hp; eauto.
  - change (String c a ++ sub ++ b)%string with (String c (a ++ sub ++ b)).
    cbn [Str.find_nat].
    destruct (String.prefix sub (String c (a ++ sub ++ b))); [eauto |].
    destruct IH as [i ->]. eauto.
Qed.

(** [sub in s] holds exactly when [sub] occurs in [s]. *)
Lemma contains_occurs (sub s : string) :
  Str.contains sub s = true <-> occurs sub s.
Proof.
  unfold Str.contains. split.
  - destruct (Str.find_nat sub s) as [i |] eqn:Hi; [| discriminate].
    intros _. destruct (find_nat_occurs _ _ _ Hi) as (a & b & -> & _).
    exists a, b. reflexivity.
  - intros H. destruct (occurs_find_nat _ _ H) as [i ->]. reflexivity.
Qed.

Lemma rfind_nat_occurs (sub s : string) (i : nat) :
  Str.rfind_nat sub s = Some i ->
  exists a b, s = (a ++ sub ++ b)%string /\ String.length a = i.
Proof.
  revert i. induction s as [|c s IH]; intros i; cbn [Str.rfind_nat].
  - destruct (String.prefix sub "") eqn:Hp; [| discriminate].
    intros [= <-]. apply prefix_app_iff in Hp as [b Hb].
    exists EmptyString, b. split; [exact Hb | reflexivity].
  - destruct (Str.rfind_nat sub s) as [j |].
    + intros [= <-]. destruct (IH j eq_refl) as (a & b & -> & <-).
      exists (String c a), b. split; reflexivity.
    + destruct (String.prefix sub (String c s)) eqn:Hp; [| discriminate].
      intros [= <-]. apply prefix_app_iff in Hp as [b Hb].
      exists EmptyString, b. split; [exact Hb | reflexivity].
Qed.

Lemma occurs_rfind_nat (sub s : string) :
  occurs sub s -> exists i, Str.rfind_nat sub s = Some i.
Proof.
  intros (a & b & ->). induction a as [|c a IH].
  - change (EmptyString ++ sub ++ b)%string with (sub ++ b)%string.
    assert (Hp : String.prefix sub (sub ++ b) = true)
      by (apply prefix_app_iff; eauto).
    destruct (sub ++ b)%string as [|d t]; cbn [Str.rfind_nat].
    + rewrite Hp. eauto.
    + destruct (Str.rfind_nat sub t); [eauto |]. rewrite Hp. eauto.
  - change (String c a ++ sub ++ b)%string with (String c (a ++ sub ++ b)).
    cbn [Str.rfind_nat]. destruct IH as [i ->]. eauto.
Qed.

(** [rfind] returns the last occurrence: none begins behind it. *)
Lemma rfind_nat_last (sub s a b : string) (i : nat) :
  sub <> EmptyString ->
  Str.rfind_nat sub s = Some i ->
  s = (a ++ sub ++ b)%string ->
  (String.length a <= i)%nat.
Proof.
  intros Hsub. revert a i. induction s as [|c s IH]; intros a i Hi Hs.
  - destruct a; [| discriminate Hs].
    destruct sub; [congruence | discriminate Hs].
  - destruct a as [|d a]; [cbn [String.length]; lia |].
    change (String d a ++ sub ++ b)%string
      with (String d (a ++ sub ++ b)) in Hs.
    injection Hs as _ Hs. cbn [Str.rfind_nat] in Hi.
    destruct (occurs_rfind_nat sub s) as [j Hj]; [exists a, b; exact Hs |].
    rewrite Hj in Hi. injection Hi as <-.
    cbn [String.length]. apply le_n_S. exact (IH a j Hj Hs).
Qed.

(** In front of a text that holds [sub], a prefix only shifts the last
    occurrence. *)
Lemma rfind_nat_app (sub p w : string) (i : nat) :
  Str.rfind_nat sub w = Some i ->
  Str.rfind_nat sub (p ++ w) = Some (String.length p + i)%nat.
Proof.
  intros Hi. induction p as [|c p IH]; [exact Hi |].
  change (String c p ++ w)%string with (String c (p ++ w)).
  cbn [Str.rfind_nat String.length]. rewrite IH. reflexivity.
Qed.

Lemma substring_app_skip (p w : string) (n m : nat) :
  String.substring (String.length p + n) m (p ++ w) = String.substring n m w.
Proof. induction p as [|c p IH]; [reflexivity | exact IH]. Qed.

Lemma slice_app_skip (p w : string) (i j : Z) :
  0 <= i -> 0 <= j ->
  Str.slice (p ++ w) (Str.len p + i) (Str.len p + j) = Str.slice w i j.
Proof.
  intros Hi Hj. unfold Str.slice, Str.len, Str.clamp.
  rewrite string_length_app.
  destruct (Z.ltb_spec (Z.of_nat (String.length p) + i) 0); [lia |].
  destruct (Z.ltb_spec (Z.of_nat (String.length p) + j) 0); [lia |].
  destruct (Z.ltb_spec i 0); [lia |]. destruct (Z.ltb_spec j 0); [lia |].
  set (n := String.length p). set (k := String.length w).
  replace (Z.to_nat (Z.min (Z.of_nat n + i) (Z.of_nat (n + k))))
    with (n + Z.to_nat (Z.min i (Z.of_nat k)))%nat by lia.
  replace (Z.to_nat (Z.min (Z.of_nat n + j) (Z.of_nat (n + k))
                     - Z.min (Z.of_nat n + i) (Z.of_nat (n + k))))
    with (Z.to_nat (Z.min j (Z.of_nat k) - Z.min i (Z.of_nat k))) by lia.
  apply substring_app_skip.
Qed.

(** X1. The name of the trace file is read off the part of the source
    name from its last "dt_" on: in front of a text that holds "dt_"
    and "Values", any prefix leaves [output_filename] unchanged.  Two
    recordings that differ only before the marker are written to the
    same trace file. *)
Theorem output_filename_ignores_prefix (p w : string) :
  Str.contains "dt_" w = true ->
  Str.contains "Values" w = true ->
  output_filename (p ++ w) = output_filename w.
Proof.
  intros Hdt Hval.
  apply contains_occurs, occurs_rfind_nat in Hdt as [i Hi].
  apply contains_occurs, occurs_rfind_nat in Hval as [j Hj].
  unfold output_filename, Str.rfind.
  rewrite (rfind_nat_app _ p _ _ Hi), (rfind_nat_app _ p _ _ Hj), Hi, Hj.
  cbn [Str.index_or_minus1]. f_equal.
  rewrite <- (slice_app_skip p w (Z.of_nat i + 3) (Z.of_nat j)) by lia.
  unfold Str.len. f_equal; lia.
Qed.

Lemma output_filename_ignores_prefix_witness :
  output_filename ("b_" ++ "a_dt_1_Values.txt")
  = output_filename "a_dt_1_Values.txt".
Proof. apply output_filename_ignores_prefix; reflexivity. Defined.

(** ** The files the script writes *)

Lemma substring_split (a n : nat) (s : string) :
  exists x y, s = (x ++ String.substring a n s ++ y)%string
              /\ String.length x = Nat.min a (String.length s).
Proof.
  revert a n. induction s as [|c s IH]; intros a n.
  - exists EmptyString, EmptyString. destruct a, n; split; reflexivity.
  - destruct a as [|a].
    + destruct n as [|n].
      * exists EmptyString, (String c s). split; reflexivity.
      * destruct (IH 0%nat n) as (x & y & Hs & Hx).
        destruct x; [| discriminate Hx].
        exists EmptyString, y. split; [| reflexivity].
        cbn [String.substring].
        change (EmptyString ++ String c (String.substring 0 n s) ++ y)%string
          with (String c (EmptyString ++ String.substring 0 n s ++ y)).
        f_equal. exact Hs.
    + destruct (IH a n) as (x & y & Hs & Hx).
      exists (String c x), y. cbn [String.substring String.length Nat.min].
      split; [| f_equal; exact Hx].
      change (String c x ++ String.substring a n s ++ y)%string
        with (String c (x ++ String.substring a n s ++ y)).
      f_equal. exact Hs.
Qed.

(** What occurs in a slice occurs in the text, at the slice's offset. *)
Lemma occurs_slice (sub s u v : string) (i j : Z) :
  Str.slice s i j = (u ++ sub ++ v)%string ->
  exists x y, s = ((x ++ u) ++ sub ++ (v ++ y))%string
              /\ String.length x
                 = Nat.min (Z.to_nat (Str.clamp (Str.len s) i))
                     (String.length s).
Proof.
  unfold Str.slice. intros Hslice.
  destruct (substring_split (Z.to_nat (Str.clamp (Str.len s) i))
              (Z.to_nat (Str.clamp (Str.len s) j
                         - Str.clamp (Str.len s) i)) s)
    as (x & y & Hs & Hx).
  exists x, y. split; [| exact Hx].
  rewrite Hslice in Hs. rewrite Hs at 1.
  rewrite !string_app_assoc. reflexivity.
Qed.

(** The text cut out for the trace name holds no "dt_". *)
Lemma no_marker_after_last (s : string) (j : Z) :
  Str.contains "dt_" (Str.slice s (Str.rfind "dt_" s + 3) j) = false.
Proof.
  apply not_true_is_false. intros H.
  apply contains_occurs in H as (u & v & Hslice).
  destruct (occurs_slice _ _ _ _ _ _ Hslice) as (x & y & Hs & Hx).
  unfold Str.rfind in Hx.
  destruct (Str.rfind_nat "dt_" s) as [i |] eqn:Hi.
  - destruct (rfind_nat_occurs _ _ _ Hi) as (a & b & Hab & Ha).
    assert (Hlen : (i + 3 <= String.length s)%nat).
    { rewrite Hab, !string_length_app, Ha. cbn [String.length]. lia. }
    pose proof (rfind_nat_last "dt_" s (x ++ u) (v ++ y) i
                  ltac:(discriminate) Hi Hs) as Hlast.
    rewrite string_length_app in Hlast.
    cbn [Str.index_or_minus1] in Hx. unfold Str.clamp, Str.len in Hx.
    destruct (Z.ltb_spec (Z.of_nat i + 3) 0); lia.
  - destruct (occurs_rfind_nat "dt_" s) as [i' Hi'];
      [exists (x ++ u)%string, (v ++ y)%string; exact Hs | congruence].
Qed.

Lemma prefix_dt_app_dot (x t : string) :
  String.prefix "dt_" (x ++ String "." t) = String.prefix "dt_" x.
Proof.
  destruct x as [|a [|b [|c x]]];
    repeat match goal with
      | |- context [(String ?h ?r ++ ?y)%string] =>
          change (String h r ++ y)%string with (String h (r ++ y))
      | |- context [(EmptyString ++ ?y)%string] =>
          change (EmptyString ++ y)%string with y
      end;
    cbn [String.prefix];
    repeat match goal with
      | |- context [ascii_dec ?p ?q] => destruct (ascii_dec p q)
      end; try reflexivity; try congruence.
  transitivity true; [| symmetry]; apply prefix_app_iff; eexists; reflexivity.
Qed.

Lemma no_marker_app_csv (x : string) :
  Str.contains "dt_" x = false ->
  Str.contains "dt_" (x ++ ".csv") = false.
Proof.
  unfold Str.contains. induction x as [|c x IH]; [reflexivity |].
  pose proof (prefix_dt_app_dot (String c x) "csv") as Hp.
  change (String c x ++ ".csv")%string with (String c (x ++ ".csv")) in *.
  cbn [Str.find_nat]. rewrite Hp.
  destruct (String.prefix "dt_" (String c x)); [discriminate |].
  destruct (Str.find_nat "dt_" x); [discriminate |]. intros _.
  destruct (Str.find_nat "dt_" (x ++ ".csv")); [| reflexivity].
  discriminate (IH eq_refl).
Qed.

(** No file the script writes passes the classifier's tests. *)
Lemma output_filename_not_candidate (s : string) :
  candidate (output_filename s) = false.
Proof.
  unfold candidate, output_filename.
  rewrite (no_marker_app_csv _ (no_marker_after_last s _)).
  rewrite andb_false_r. reflexivity.
Qed.

Lemma filter_write (p : string -> bool) (name : string) (d : data)
    (l : list (string * data)) :
  p name = false ->
  List.filter p (map fst (write name d l)) = List.filter p (map fst l).
Proof.
  intros Hp. induction l as [|[k d'] l IH]; cbn [write map fst List.filter].
  - rewrite Hp. reflexivity.
  - destruct (String.eqb name k); cbn [map fst List.filter];
      [reflexivity | rewrite IH; reflexivity].
Qed.

Lemma assoc_write_other (k name : string) (d : data)
    (l : list (string * data)) :
  k <> name -> assoc k (write name d l) = assoc k l.
Proof.
  intros Hne. induction l as [|[k' d'] l IH]; cbn [write assoc].
  - destruct (String.eqb_spec k name); [contradiction | reflexivity].
  - destruct (String.eqb_spec name k') as [-> | Hk']; cbn [assoc].
    + destruct (String.eqb_spec k k'); [contradiction | reflexivity].
    + rewrite IH. reflexivity.
Qed.


Lemma same_inputs_refl (fs : filesystem) : same_inputs fs fs.
Proof. repeat split. Qed.

Lemma same_inputs_trans (fs1 fs2 fs3 : filesystem) :
  same_inputs fs1 fs2 -> same_inputs fs2 fs3 -> same_inputs fs1 fs3.
Proof.
  intros (Hf & Ha & Hs) (Hf' & Ha' & Hs'). repeat split.
  - rewrite Hf'. exact Hf.
  - intros k Hk. rewrite (Ha' k Hk). exact (Ha k Hk).
  - rewrite Hs'. exact Hs.
Qed.

Lemma savetxt_same_inputs (fs fs' : filesystem) (name : string)
    (a : ndarray) :
  candidate name = false ->
  savetxt fs name a = Ok fs' -> same_inputs fs fs'.
Proof.
  intros Hname. destruct a as [x | l]; [discriminate |]. intros [= <-].
  unfold same_inputs, listdir_files. cbn [top sub]. repeat split.
  - apply filter_write, Hname.
  - intros k Hk. apply assoc_write_other. intros ->. congruence.
Qed.

Lemma for_each_invariant {A S} (body : S -> A -> result S) (R : S -> S -> Prop) :
  (forall s, R s s) ->
  (forall s1 s2 s3, R s1 s2 -> R s2 s3 -> R s1 s3) ->
  (forall s x s', body s x = Ok s' -> R s s') ->
  forall l s s', for_each body l s = Ok s' -> R s s'.
Proof.
  intros Hrefl Htrans Hbody l. induction l as [|x l IH]; intros s s';
    cbn [for_each].
  - intros [= <-]. apply Hrefl.
  - intros H. step H as s1 Hs1. eapply Htrans; [eapply Hbody, Hs1 |].
    apply IH, H.
Qed.

Lemma normalize_file_same_inputs (control : ndarray)
    (st st' : filesystem * option ndarray) (source_filename : string) :
  normalize_file control st source_filename = Ok st' ->
  same_inputs (fst st) (fst st').
Proof.
  unfold normalize_file. intros H.
  step H as rate Hrate. step H as raw Hraw. step H as d Hd.
  step H as fs1 Hsave. injection H as <-. cbn [fst].
  exact (savetxt_same_inputs _ _ _ _ (output_filename_not_candidate _) Hsave).
Qed.

(** The directory as the Baseline Loader and the Normalizer leave it. *)
Lemma savetxt_stages_same_inputs (fs fs1 : filesystem) (names l : list string)
    (control : ndarray) (g : option ndarray)
    (st : filesystem * option ndarray) :
  load_UV fs names = Ok fs1 ->
  for_each (normalize_file control) l (fs1, g) = Ok st ->
  same_inputs fs (fst st).
Proof.
  intros Hfs1 Hloop. apply same_inputs_trans with fs1.
  - unfold load_UV in Hfs1. step Hfs1 as name Hname. step Hfs1 as UV HUV.
    step Hfs1 as norm Hnorm.
    apply (savetxt_same_inputs fs fs1 "UV.csv" norm); [reflexivity | exact Hfs1].
  - apply (for_each_invariant (normalize_file control)
             (fun s s' => same_inputs (fst s) (fst s'))) in Hloop;
      [exact Hloop | | |].
    + intros s. apply same_inputs_refl.
    + intros s1 s2 s3. apply same_inputs_trans.
    + intros s x s'. apply normalize_file_same_inputs.
Qed.

Lemma run_same_inputs (fs : filesystem) (o : outcome) :
  run fs = Ok o -> same_inputs fs (out_fs o).
Proof.
  unfold run. intros H.
  step H as names Hnames. step H as control Hcontrol. step H as fs1 Hfs1.
  step H as st Hloop. step H as range Hrange. step H as plots Hplots.
  injection H as <-. cbn [out_fs].
  exact (savetxt_stages_same_inputs _ _ _ _ _ _ _ Hfs1 Hloop).
Qed.

(** X2. The script's own outputs are never taken for inputs: in the
    directory as the Baseline Loader and the Normalizer leave it, the
    File Classifier selects the same control, UV and recording files as
    it did at the start of the run. *)
Theorem outputs_are_not_classified (fs : filesystem) (o : outcome) :
  run fs = Ok o ->
  controlfile (listdir_files (out_fs o)) = controlfile (listdir_files fs)
  /\ UVfile (listdir_files (out_fs o)) = UVfile (listdir_files fs)
  /\ cafiles (listdir_files (out_fs o)) = cafiles (listdir_files fs).
Proof.
  intros H. destruct (run_same_inputs fs o H) as (Hf & _ & _).
  assert (Hcongr : forall f q : string -> bool,
            (forall s, f s = candidate s && q s) ->
            List.filter f (listdir_files (out_fs o))
            = List.filter f (listdir_files fs)).
  { intros f q Hfq. rewrite !(filter_ext _ _ Hfq), <- !filter_twice, Hf.
    reflexivity. }
  rewrite !controlfile_filter, !UVfile_filter, !cafiles_filter.
  split; [| split].
  - apply (Hcongr _ (Str.contains "control")). reflexivity.
  - apply (Hcongr _ (fun s => negb (Str.contains "control" s)
                              && Str.contains "UV" s)).
    intros s. symmetry. apply andb_assoc.
  - apply (Hcongr _ (fun s => negb (Str.contains "control" s)
                              && negb (Str.contains "UV" s))).
    intros s. symmetry. apply andb_assoc.
Qed.

Lemma outputs_are_not_classified_witness :
  controlfile (listdir_files (out_fs plain_outcome))
  = controlfile (listdir_files plain_dir)
  /\ UVfile (listdir_files (out_fs plain_outcome))
     = UVfile (listdir_files plain_dir)
  /\ cafiles (listdir_files (out_fs plain_outcome))
     = cafiles (listdir_files plain_dir).
Proof.
  apply (outputs_are_not_classified plain_dir plain_outcome).
  vm_compute. reflexivity.
Defined.

(** X3. The files that line 38 and the Normalizer (lines 45-53) write
    with [np.savetxt] never replace an input and never lie below the
    working directory: when the Baseline Loader and the Normalizer have
    completed, every file whose name passes the tests of lines 22-27
    (the control, the UV reference, the recordings) has the content it
    had at the start, and the sub-directories are as they were.  The
    images that the Plotter saves afterwards (line 107) are not covered
    by this statement. *)
Theorem savetxt_keeps_inputs (fs fs1 : filesystem) (names l : list string)
    (control : ndarray) (g : option ndarray)
    (st : filesystem * option ndarray) :
  load_UV fs names = Ok fs1 ->
  for_each (normalize_file control) l (fs1, g) = Ok st ->
  (forall k, candidate k = true ->
             assoc k (top fs1) = assoc k (top fs)
             /\ assoc k (top (fst st)) = assoc k (top fs))
  /\ sub fs1 = sub fs
  /\ sub (fst st) = sub fs.
Proof.
  intros Hfs1 Hloop.
  destruct (savetxt_stages_same_inputs _ _ _ _ _ _ _ Hfs1 Hloop)
    as (_ & Ha & Hs).
  destruct (savetxt_stages_same_inputs fs fs1 names [] control g (fs1, g)
              Hfs1 eq_refl) as (_ & Ha1 & Hs1).
  cbn [fst] in Ha1, Hs1. auto.
Qed.

Lemma savetxt_keeps_inputs_witness :
  (forall k, candidate k = true ->
             assoc k (top plain_loaded) = assoc k (top plain_dir)
             /\ assoc k (top (fst plain_normalized))
                = assoc k (top plain_dir))
  /\ sub plain_loaded = sub plain_dir
  /\ sub (fst plain_normalized) = sub plain_dir.
Proof.
  apply (savetxt_keeps_inputs plain_dir plain_loaded
           (listdir_files plain_dir) (cafiles (listdir_files plain_dir))
           (Arr1 (of_Z <$> [1; 1; 1; 1])) None plain_normalized);
    vm_compute; reflexivity.
Defined.

(** ** Paths in the working directory *)

Lemma prefix_slash (c : ascii) (s t : string) :
  String.prefix "/" (String c s) = String.prefix "/" (String c t).
Proof.
  cbn [String.prefix]. destruct (ascii_dec "/" c); [| reflexivity].
  transitivity true; [| symmetry]; apply prefix_app_iff; eexists; reflexivity.
Qed.

Lemma contains_false_rfind (sub s : string) :
  Str.contains sub s = false -> Str.rfind_nat sub s = None.
Proof.
  intros H. destruct (Str.rfind_nat sub s) as [i |] eqn:Hi; [| reflexivity].
  destruct (rfind_nat_occurs _ _ _ Hi) as (a & b & Hs & _).
  assert (Hc : Str.contains sub s = true)
    by (apply contains_occurs; exists a, b; exact Hs).
  congruence.
Qed.

Lemma contains_false_prefix (sub s : string) :
  Str.contains sub s = false -> String.prefix sub s = false.
Proof.
  intros H. apply not_true_is_false. intros Hp.
  apply prefix_app_iff in Hp as [b Hb].
  assert (Hc : Str.contains sub s = true)
    by (apply contains_occurs; exists EmptyString, b; exact Hb).
  congruence.
Qed.

(** Behind a directory path, a name without "/" does not move the last
    "/". *)
Lemma rfind_slash_app (p n : string) :
  Str.contains "/" n = false ->
  Str.rfind_nat "/" (p ++ n) = Str.rfind_nat "/" p.
Proof.
  intros Hn. induction p as [|c p IH].
  - change (EmptyString ++ n)%string with n.
    rewrite (contains_false_rfind _ _ Hn). reflexivity.
  - change (String c p ++ n)%string with (String c (p ++ n)).
    cbn [Str.rfind_nat]. rewrite IH, (prefix_slash c (p ++ n) p).
    reflexivity.
Qed.

Lemma substring_app_l (a b : string) :
  String.substring 0 (String.length a) (a ++ b) = a.
Proof.
  induction a as [|c a IH]; [destruct b; reflexivity |].
  change (String c a ++ b)%string with (String c (a ++ b)).
  cbn [String.length String.substring]. f_equal. exact IH.
Qed.

Lemma slice_to_length (a b : string) :
  Str.slice (a ++ b) 0 (Str.len a) = a.
Proof.
  unfold Str.slice, Str.len, Str.clamp. rewrite string_length_app.
  destruct (Z.ltb_spec (Z.of_nat (String.length a)) 0); [lia |].
  change (0 <? 0) with false. cbn iota.
  replace (Z.to_nat (Z.min 0 _)) with 0%nat by lia.
  replace (Z.to_nat (Z.min (Z.of_nat (String.length a)) _ - Z.min 0 _))
    with (String.length a) by lia.
  apply substring_app_l.
Qed.

Lemma path_join_top (n : string) :
  Str.contains "/" n = false -> path_join mypath n = (mypath ++ n)%string.
Proof.
  intros Hn. unfold path_join. rewrite (contains_false_prefix _ _ Hn).
  reflexivity.
Qed.

Lemma basename_top (n : string) :
  Str.contains "/" n = false -> basename (mypath ++ n) = n.
Proof.
  intros Hn. unfold basename, Str.slice_from, Str.rfind.
  rewrite (rfind_slash_app mypath n Hn).
  change (Str.index_or_minus1 (Str.rfind_nat "/" mypath) + 1)
    with (Z.of_nat (String.length mypath)).
  apply slice_from_length.
Qed.

(** A name without "/" and its full path both denote the file of that
    name in the working directory. *)
Lemma read_top (fs : filesystem) (n : string) :
  Str.contains "/" n = false ->
  read fs n = assoc n (top fs) /\ read fs (mypath ++ n) = assoc n (top fs).
Proof.
  intros Hn.
  assert (Hfull : read fs (mypath ++ n) = assoc n (top fs)).
  { unfold read.
    assert (Hjoin : path_join mypath (mypath ++ n) = (mypath ++ n)%string)
      by reflexivity.
    rewrite Hjoin. unfold Str.rfind. rewrite (rfind_slash_app mypath n Hn).
    change (Str.index_or_minus1 (Str.rfind_nat "/" mypath) + 1)
      with (Str.len mypath).
    rewrite slice_to_length. unfold Str.slice_from.
    change (Str.len mypath) with (Z.of_nat (String.length mypath)) at 1.
    rewrite slice_from_length. rewrite String.eqb_refl. reflexivity. }
  split; [| exact Hfull].
  rewrite <- Hfull. unfold read at 1. rewrite (path_join_top n Hn).
  unfold read. reflexivity.
Qed.



(** ** From the Normalizer to the Range Scanner *)

Lemma no_slash_slice (s : string) (i j : Z) :
  Str.contains "/" s = false -> Str.contains "/" (Str.slice s i j) = false.
Proof.
  intros Hs. apply not_true_is_false. intros H.
  apply contains_occurs in H as (u & v & Hslice).
  destruct (occurs_slice _ _ _ _ _ _ Hslice) as (x & y & Hxy & _).
  assert (Hc : Str.contains "/" s = true)
    by (apply contains_occurs; eexists _, _; exact Hxy).
  congruence.
Qed.

Lemma no_slash_app_csv (x : string) :
  Str.contains "/" x = false -> Str.contains "/" (x ++ ".csv") = false.
Proof.
  unfold Str.contains. induction x as [|c x IH]; [reflexivity |].
  change (String c x ++ ".csv")%string with (String c (x ++ ".csv")).
  cbn [Str.find_nat]. rewrite (prefix_slash c (x ++ ".csv") x).
  destruct (String.prefix "/" (String c x)); [discriminate |].
  destruct (Str.find_nat "/" x); [discriminate |]. intros _.
  destruct (Str.find_nat "/" (x ++ ".csv")); [| reflexivity].
  discriminate (IH eq_refl).
Qed.

Lemma endswith_app (x suf : string) : Str.endswith suf (x ++ suf) = true.
Proof.
  unfold Str.endswith. rewrite string_length_app.
  apply andb_true_intro. split; [apply Nat.leb_le; lia |].
  replace (String.length x + String.length suf - String.length suf)%nat
    with (String.length x) by lia.
  rewrite substring_app_r. apply String.eqb_refl.
Qed.

Lemma normalize_file_inv (control : ndarray)
    (st st' : filesystem * option ndarray) (source_filename : string) :
  normalize_file control st source_filename = Ok st' ->
  exists raw trace,
    genfromtxt (fst st) source_filename = Ok raw
    /\ dF_F raw control = Ok (Arr1 trace)
    /\ savetxt (fst st) (output_filename source_filename) (Arr1 trace)
       = Ok (fst st')
    /\ snd st' = Some (Arr1 trace).
Proof.
  unfold normalize_file. intros H.
  step H as rate Hrate. step H as raw Hraw. step H as d Hd.
  step H as fs1 Hsave. injection H as <-. cbn [fst snd].
  destruct d as [x | trace]; [discriminate Hsave |]. eauto 6.
Qed.

Lemma assoc_keys (k : string) (d : data) (l : list (string * data)) :
  assoc k l = Some d -> In k (map fst l).
Proof.
  induction l as [|[k' d'] l IH]; cbn [assoc map fst In]; [discriminate |].
  destruct (String.eqb_spec k k') as [-> | Hne]; [auto |].
  intros H. right. apply IH, H.
Qed.

(** A file keeps its content through the turns of the Normalizer that
    write under other names. *)
Lemma normalize_keeps_other (control : ndarray) (l : list string)
    (st st' : filesystem * option ndarray) (k : string) :
  for_each (normalize_file control) l st = Ok st' ->
  (forall x, In x l -> output_filename x <> k) ->
  assoc k (top (fst st')) = assoc k (top (fst st)).
Proof.
  revert st. induction l as [|x l IH]; intros st; cbn [for_each].
  - intros [= <-] _. reflexivity.
  - intros H Hother. step H as st1 Hstep.
    rewrite (IH st1 H) by (intros y Hy; apply Hother; right; exact Hy).
    apply normalize_file_inv in Hstep as (raw & trace & _ & _ & Hsave & _).
    injection Hsave as Hsave. rewrite <- Hsave. cbn [top].
    apply assoc_write_other. intros ->. apply (Hother x); [left |]; reflexivity.
Qed.

Lemma genfromtxt_same_inputs (fs fs' : filesystem) (name : string) :
  same_inputs fs fs' ->
  candidate name = true ->
  Str.contains "/" name = false ->
  genfromtxt fs' name = genfromtxt fs name.
Proof.
  intros (_ & Ha & _) Hc Hn. unfold genfromtxt.
  rewrite (proj1 (read_top fs' name Hn)), (proj1 (read_top fs name Hn)).
  rewrite (Ha name Hc). reflexivity.
Qed.

(** The trace of a recording, once the loop of the Normalizer is over,
    when no other recording of the batch has the same output name. *)
Lemma normalize_writes_trace (control : ndarray) (l : list string)
    (st st' : filesystem * option ndarray) (src : string) :
  for_each (normalize_file control) l st = Ok st' ->
  In src l ->
  candidate src = true ->
  Str.contains "/" src = false ->
  (forall x, In x l -> output_filename x = output_filename src -> x = src) ->
  exists raw trace,
    genfromtxt (fst st) src = Ok raw
    /\ dF_F raw control = Ok (Arr1 trace)
    /\ assoc (output_filename src) (top (fst st')) = Some trace.
Proof.
  intros H Hin Hc Hn. revert st H Hin.
  induction l as [|x l IH]; intros st H Hin Huniq; [destruct Hin |].
  cbn [for_each] in H. step H as st1 Hstep.
  destruct (in_dec string_dec src l) as [Hlater | Hlast].
  - destruct (IH st1 H Hlater) as (raw & trace & Hraw & Hd & Hout).
    { intros y Hy. apply Huniq. right. exact Hy. }
    exists raw, trace. split; [| split; assumption].
    rewrite <- Hraw. symmetry.
    apply genfromtxt_same_inputs; [| assumption | assumption].
    apply (normalize_file_same_inputs control st st1 x Hstep).
  - destruct Hin as [-> | Hin]; [| contradiction].
    apply normalize_file_inv in Hstep as (raw & trace & Hraw & Hd & Hsave & _).
    exists raw, trace. split; [exact Hraw |]. split; [exact Hd |].
    rewrite (normalize_keeps_other control l st1 st' _ H).
    + injection Hsave as Hsave. rewrite <- Hsave. cbn [top].
      apply assoc_write.
    + intros y Hy Hsame. apply Hlast.
      rewrite <- (Huniq y (or_intror Hy) Hsame). exact Hy.
Qed.

(** X5. The trace of every recording reaches the Range Scanner as it
    was computed.  In a run that completes, take a recording whose name
    has no "/" and whose output name no other recording of the batch
    shares.  Its path is in [csvz]; in the directory that line 56 walks
    and the Range Scanner reads, loading that path gives the values
    [dF_F] computed from the recording as it was at the start and the
    control (as a 1-d array, or 0-d if there is exactly one value); and
    the final maximum is not below the maximum of these values. *)
Theorem trace_of_each_recording (fs : filesystem) (o : outcome)
    (src : string) :
  run fs = Ok o ->
  In src (out_cafiles o) ->
  Str.contains "/" src = false ->
  (forall x, In x (out_cafiles o) ->
             output_filename x = output_filename src -> x = src) ->
  exists rows trace m,
    read fs src = Some rows
    /\ dF_F (squeeze rows) (out_control o) = Ok (Arr1 trace)
    /\ In (path_join mypath (output_filename src)) (out_csvz o)
    /\ genfromtxt (out_fs o) (path_join mypath (output_filename src))
       = Ok (squeeze trace)
    /\ np_max (squeeze trace) = Ok m
    /\ flt (out_maxvalue o) m = false.
Proof.
  unfold run. intros H.
  step H as names Hnames. step H as control Hcontrol. step H as fs1 Hfs1.
  step H as st Hloop. step H as range Hrange. step H as plots Hplots.
  injection H as <-.
  cbn [out_cafiles out_control out_csvz out_fs out_maxvalue].
  intros Hin Hn Huniq.
  assert (Hc : candidate src = true).
  { rewrite cafiles_filter in Hin. apply filter_In in Hin as [_ Hin].
    apply andb_prop in Hin as [Hin _]. apply andb_prop in Hin as [Hin _].
    exact Hin. }
  destruct (normalize_writes_trace control _ _ _ src Hloop Hin Hc Hn Huniq)
    as (raw & trace & Hraw & Hd & Hout).
  cbn [fst] in Hraw.
  rewrite (genfromtxt_same_inputs fs fs1 src) in Hraw;
    [| | assumption | assumption].
  2: { apply (savetxt_stages_same_inputs fs fs1 names [] control None
                (fs1, None) Hfs1 eq_refl). }
  unfold genfromtxt in Hraw. destruct (read fs src) as [rows |] eqn:Hrows;
    [| discriminate Hraw].
  injection Hraw as <-.
  assert (Hno : Str.contains "/" (output_filename src) = false)
    by (apply no_slash_app_csv, no_slash_slice, Hn).
  assert (Hpath : In (path_join mypath (output_filename src)) (csvz (fst st))).
  { apply (csvz_complete (fst st) mypath _ (map fst (top (fst st))));
      [left; reflexivity | | apply endswith_app].
    exact (assoc_keys _ _ _ Hout). }
  assert (Hload : genfromtxt (fst st) (path_join mypath (output_filename src))
                  = Ok (squeeze trace)).
  { rewrite (path_join_top _ Hno). unfold genfromtxt.
    rewrite (proj2 (read_top (fst st) _ Hno)), Hout. reflexivity. }
  unfold range_scanner in Hrange.
  step Hrange as [mv g] Hscan. step Hrange as mn Hmn.
  injection Hrange as <-. cbn [fst].
  destruct (scan_invariant (fst st) (csvz (fst st)) (of_Z 0) mv (snd st) g)
    as (_ & _ & Hall); [compute_done | exact Hscan |].
  rewrite List.Forall_forall in Hall.
  destruct (Hall _ Hpath) as (d & m & Hd' & Hm & Hcover).
  rewrite Hload in Hd'. injection Hd' as <-.
  exists rows, trace, m. auto 10.
Qed.

Lemma trace_of_each_recording_witness :
  exists rows trace m,
    read plain_dir "a_dt_2_Values.txt" = Some rows
    /\ dF_F (squeeze rows) (out_control plain_outcome) = Ok (Arr1 trace)
    /\ In (path_join mypath (output_filename "a_dt_2_Values.txt"))
         (out_csvz plain_outcome)
    /\ genfromtxt (out_fs plain_outcome)
         (path_join mypath (output_filename "a_dt_2_Values.txt"))
       = Ok (squeeze trace)
    /\ np_max (squeeze trace) = Ok m
    /\ flt (out_maxvalue plain_outcome) m = false.
Proof.
  assert (Hc : out_cafiles plain_outcome = ["a_dt_2_Values.txt"])
    by (vm_compute; reflexivity).
  apply (trace_of_each_recording plain_dir plain_outcome "a_dt_2_Values.txt").
  - vm_compute. reflexivity.
  - rewrite Hc. left. reflexivity.
  - vm_compute. reflexivity.
  - rewrite Hc. intros x [<- | []]. reflexivity.
Defined.

(** ** Shapes and special values *)

(** X6. A recording whose number of samples differs from the control's,
    neither of the two being a single sample, cannot be normalised: the
    subtraction raises ValueError and the Normalizer writes nothing. *)
Theorem length_mismatch_raises (fs : filesystem) (g : option ndarray)
    (source_filename : string) (rate : float64) (R C : list float64) :
  timerate source_filename = Ok rate ->
  read fs source_filename = Some R ->
  length R <> 1%nat -> length C <> 1%nat -> length R <> length C ->
  dF_F (squeeze R) (squeeze C) = Raise ValueError
  /\ normalize_file (squeeze C) (fs, g) source_filename = Raise ValueError.
Proof.
  intros Hrate Hread HR HC Hne.
  assert (Hd : dF_F (squeeze R) (squeeze C) = Raise ValueError).
  { destruct (squeeze_cases R) as [(x & -> & _) | (_ & ->)]; [contradiction |].
    destruct (squeeze_cases C) as [(y & -> & _) | (_ & ->)]; [contradiction |].
    unfold dF_F. cbn [broadcast].
    apply Nat.eqb_neq in Hne. rewrite Hne.
    destruct R as [|x [|x' R]], C as [|y [|y' C]];
      try contradiction; try discriminate; reflexivity. }
  split; [exact Hd |].
  unfold normalize_file, genfromtxt. cbn [fst]. rewrite Hrate, Hread.
  cbn [mbind result_bind]. rewrite Hd. reflexivity.
Qed.

Lemma length_mismatch_raises_witness :
  dF_F (squeeze (of_Z <$> [2; 1; 0; 1])) (squeeze (of_Z <$> [1; 1; 1]))
  = Raise ValueError
  /\ normalize_file (squeeze (of_Z <$> [1; 1; 1])) (four_sample_dir, None)
       "a_dt_2_Values.txt" = Raise ValueError.
Proof.
  apply (length_mismatch_raises four_sample_dir None "a_dt_2_Values.txt"
           (of_Z 2));
    [reflexivity | reflexivity | discriminate | discriminate | discriminate].
Defined.

(** X7. A zero in the control raises nothing.  For a recording and a
    control of equal length with finite values, [dF_F] returns an array,
    and where the control is 0 its value is NaN if the recording equals
    the control there, +inf if it is above and -inf if it is below. *)
Theorem zero_baseline_is_silent (R C : list Qc) :
  length R = length C ->
  exists out,
    dF_F (squeeze (Fin <$> R)) (squeeze (Fin <$> C)) = Ok out
    /\ forall i r,
         R !! i = Some r -> C !! i = Some 0%Qc ->
         ravel out !! i
         = Some (if decide (r = 0%Qc) then NaN
                 else if decide (0 < r)%Qc then PInf else NInf).
Proof.
  intros Hlen. eexists. split.
  - apply dF_F_rows. rewrite !length_fmap. exact Hlen.
  - intros i r Hr Hc. rewrite ravel_squeeze, lookup_zip_with.
    rewrite !list_lookup_fmap, Hr, Hc. cbn [fmap option_fmap option_map
      mbind option_bind fsub fdiv]. f_equal.
    replace (r - 0)%Qc with r by ring.
    destruct (decide (0%Qc = 0%Qc)); [reflexivity | congruence].
Qed.

Lemma zero_baseline_is_silent_witness :
  exists out,
    dF_F (squeeze (Fin <$> [Q2Qc 2; Q2Qc 0; Q2Qc (-1)]))
         (squeeze (Fin <$> [Q2Qc 0; Q2Qc 0; Q2Qc 0])) = Ok out
    /\ forall i r,
         [Q2Qc 2; Q2Qc 0; Q2Qc (-1)] !! i = Some r ->
         [Q2Qc 0; Q2Qc 0; Q2Qc 0] !! i = Some 0%Qc ->
         ravel out !! i
         = Some (if decide (r = 0%Qc) then NaN
                 else if decide (0 < r)%Qc then PInf else NInf).
Proof. apply zero_baseline_is_silent. reflexivity. Defined.

(** X8. A UV file with fewer than two data rows aborts the Baseline
    Loader with ValueError: without rows [np.min] has nothing to reduce,
    and a single row is rescaled to a 0-d array, which [savetxt]
    rejects. *)
Theorem short_UV_raises (fs : filesystem) (names rest : list string)
    (f : string) (rows : list float64) :
  UVfile names = f :: rest ->
  read fs f = Some rows ->
  (length rows < 2)%nat ->
  load_UV fs names = Raise ValueError.
Proof.
  intros Hf Hread Hlen. unfold load_UV, genfromtxt. rewrite Hf.
  cbn [item0 mbind result_bind]. rewrite Hread.
  destruct rows as [|x [|x' rows]]; [reflexivity | reflexivity |].
  cbn [length] in Hlen. lia.
Qed.

Lemma short_UV_raises_witness :
  load_UV {| top := [("UV_dt_1.txt", [of_Z 7])]; sub := [] |}
    ["UV_dt_1.txt"] = Raise ValueError.
Proof.
  apply (short_UV_raises _ ["UV_dt_1.txt"] [] "UV_dt_1.txt" [of_Z 7]);
    [reflexivity | reflexivity | cbn [length]; lia].
Defined.

Lemma fmax_NaN_r (a : float64) : fmax a NaN = NaN.
Proof. destruct a; reflexivity. Qed.

Lemma fmin_NaN_r (a : float64) : fmin a NaN = NaN.
Proof. destruct a; reflexivity. Qed.

Lemma fold_fmax_NaN (l : list float64) : fold_left fmax l NaN = NaN.
Proof. induction l as [|x l IH]; [reflexivity | exact IH]. Qed.

Lemma fold_fmin_NaN (l : list float64) : fold_left fmin l NaN = NaN.
Proof. induction l as [|x l IH]; [reflexivity | exact IH]. Qed.

Lemma fold_fmax_has_NaN (l : list float64) (x : float64) :
  In NaN (x :: l) -> fold_left fmax l x = NaN.
Proof.
  revert x. induction l as [|y l IH]; intros x.
  - intros [-> | []]. reflexivity.
  - intros [-> | Hin]; [apply fold_fmax_NaN |].
    cbn [fold_left]. destruct Hin as [-> | Hin].
    + rewrite fmax_NaN_r. apply fold_fmax_NaN.
    + apply IH. right. exact Hin.
Qed.

Lemma fold_fmin_has_NaN (l : list float64) (x : float64) :
  In NaN (x :: l) -> fold_left fmin l x = NaN.
Proof.
  revert x. induction l as [|y l IH]; intros x.
  - intros [-> | []]. reflexivity.
  - intros [-> | Hin]; [apply fold_fmin_NaN |].
    cbn [fold_left]. destruct Hin as [-> | Hin].
    + rewrite fmin_NaN_r. apply fold_fmin_NaN.
    + apply IH. right. exact Hin.
Qed.

(** X9. A file that holds a NaN is invisible to the Range Scanner: its
    maximum and minimum are NaN, every comparison with NaN is false, and
    neither the running maximum nor the minimum changes, whatever the
    other values of the file are. *)
Theorem NaN_file_changes_no_range (d : ndarray)
    (maxvalue minvalue : float64) :
  In NaN (ravel d) ->
  range_step maxvalue d = Ok maxvalue
  /\ final_min minvalue (Some d) = Ok minvalue.
Proof.
  intros Hin. unfold range_step, final_min, np_max, np_min.
  destruct (ravel d) as [|x l]; [destruct Hin |].
  rewrite (fold_fmax_has_NaN l x Hin), (fold_fmin_has_NaN l x Hin).
  cbn [mbind result_bind]. unfold fgt.
  destruct maxvalue, minvalue; split; reflexivity.
Qed.

Lemma NaN_file_changes_no_range_witness :
  range_step (of_Z 0) (Arr1 [of_Z 5; NaN; of_Z (-3)]) = Ok (of_Z 0)
  /\ final_min (of_Z 0) (Some (Arr1 [of_Z 5; NaN; of_Z (-3)])) = Ok (of_Z 0).
Proof.
  apply NaN_file_changes_no_range. cbn [ravel In]. tauto.
Defined.

(** ** The batch range on finite data *)

Section range.
Local Open Scope Qc_scope.

(** X10. The upper axis limit covers the data with at most ten percent
    of headroom.  When every file of the pass holds finite values and
    the greatest of all of them, T, is above 0, the maximum the Range
    Scanner ends with lies between T and 1.1 T, in whatever order the
    files are scanned. *)
Theorem maximum_covers_finite_data (fs : filesystem) (paths : list string)
    (g : option ndarray) (range : float64 * float64) (T : Qc) :
  Forall (fun p => exists l, read fs p = Some (Fin <$> l)) paths ->
  (exists p l, In p paths /\ read fs p = Some (Fin <$> l) /\ T ∈ l) ->
  (forall p l x,
     In p paths -> read fs p = Some (Fin <$> l) -> x ∈ l -> x <= T) ->
  0 < T ->
  range_scanner fs paths (of_Z 0) (of_Z 0) g = Ok range ->
  exists M, fst range = Fin M /\ T <= M /\ M <= T * Q2Qc (11 # 10).
Proof.
  intros Hfin (pT & lT & HpT & HlT & HT) Hub Hpos Hrun.
  unfold range_scanner in Hrun. step Hrun as st Hscan. step Hrun as mn Hmn.
  injection Hrun as <-. cbn [fst]. destruct st as [mx g'].
  assert (Hseed : nonneg (of_Z 0)) by compute_done.
  destruct (scan_invariant fs _ _ _ _ _ Hseed Hscan) as (_ & _ & Hcover).
  (* the maximum of a finite file is one of its values *)
  assert (Hfile : forall p l d m,
            In p paths -> read fs p = Some (Fin <$> l) ->
            genfromtxt fs p = Ok d -> np_max d = Ok m ->
            exists q, m = Fin q /\ is_max q l).
  { intros p l d m _ Hl Hd Hm. unfold genfromtxt in Hd. rewrite Hl in Hd.
    injection Hd as <-.
    destruct l as [|x l]; [discriminate Hm |].
    destruct (is_max_exists (x :: l)) as [q Hq]; [discriminate |].
    rewrite (np_max_finite _ _ Hq) in Hm. injection Hm as <-. eauto. }
  (* the file that holds T *)
  rewrite List.Forall_forall in Hcover.
  destruct (Hcover pT HpT) as (dT & mT & HdT & HmT & HcT).
  destruct (Hfile _ _ _ _ HpT HlT HdT HmT) as (qT & -> & HqT).
  assert (HTq : T <= qT) by (apply HqT, HT).
  destruct (maxvalue_is_scaled_file_max fs _ _ _ _ _ Hscan)
    as [-> | (p & d & m & Hp & Hd & Hm & ->)].
  - apply flt_finite_false in HcT.
    exfalso. apply (Qclt_not_le 0 T Hpos).
    eapply Qcle_trans; eassumption.
  - rewrite List.Forall_forall in Hfin. destruct (Hfin p Hp) as [l Hl].
    destruct (Hfile _ _ _ _ Hp Hl Hd Hm) as (q & -> & Hq).
    unfold headroom, ratio in *. cbn [fmul] in *.
    eexists. split; [reflexivity |]. split.
    + apply flt_finite_false in HcT. eapply Qcle_trans; eassumption.
    + apply Qcmult_le_compat_r; [| compute_done].
      apply (Hub p l q Hp Hl). apply Hq.
Qed.

Lemma fmap_Fin_inj (l k : list Qc) : Fin <$> l = Fin <$> k -> l = k.
Proof.
  revert k. induction l as [|x l IH]; intros [|y k] H; try discriminate H.
  - reflexivity.
  - rewrite !fmap_cons in H. injection H as -> H. f_equal. apply IH, H.
Qed.

Lemma maximum_covers_finite_data_witness :
  exists M,
    fst (ratio 11 10, of_Z 0) = Fin M
    /\ Q2Qc (21 # 20) <= M /\ M <= Q2Qc (21 # 20) * Q2Qc (11 # 10).
Proof.
  apply (maximum_covers_finite_data scan_order_dir
           ["/where/your/files/are/a.csv"; "/where/your/files/are/b.csv"]
           None (ratio 11 10, of_Z 0) (Q2Qc (21 # 20))).
  - repeat constructor.
    + exists [Q2Qc 0; Q2Qc 1]. compute_done.
    + exists [Q2Qc 0; Q2Qc (21 # 20)]. compute_done.
  - exists "/where/your/files/are/b.csv", [Q2Qc 0; Q2Qc (21 # 20)].
    split; [right; left; reflexivity |]. split; compute_done.
  - intros p l x [<- | [<- | []]] Hl Hx.
    + assert (Hr : read scan_order_dir "/where/your/files/are/a.csv"
                   = Some (Fin <$> [Q2Qc 0; Q2Qc 1])) by compute_done.
      rewrite Hr in Hl. injection Hl as Hl.
      pose proof (fmap_Fin_inj [Q2Qc 0; Q2Qc 1] l Hl) as <-.
      repeat (apply elem_of_cons in Hx as [-> | Hx]; [compute_done |]).
      inversion Hx.
    + assert (Hr : read scan_order_dir "/where/your/files/are/b.csv"
                   = Some (Fin <$> [Q2Qc 0; Q2Qc (21 # 20)])) by compute_done.
      rewrite Hr in Hl. injection Hl as Hl.
      pose proof (fmap_Fin_inj [Q2Qc 0; Q2Qc (21 # 20)] l Hl) as <-.
      repeat (apply elem_of_cons in Hx as [-> | Hx]; [compute_done |]).
      inversion Hx.
  - compute_done.
  - compute_done.
Defined.

(** X11. The lower axis limit is taken from the file scanned last.  When
    that file holds finite values with minimum m, the Range Scanner
    ends with the minimum m if m is below the seed 0, and with 0
    otherwise; no earlier file has any part in it. *)
Theorem minimum_is_of_last_file (fs : filesystem) (paths : list string)
    (p : string) (maxvalue : float64) (g : option ndarray)
    (range : float64 * float64) (l : list Qc) (m : Qc) :
  range_scanner fs (paths ++ [p]) maxvalue (of_Z 0) g = Ok range ->
  read fs p = Some (Fin <$> l) ->
  is_min m l ->
  snd range = Fin (if decide (m < 0) then m else 0).
Proof.
  intros Hrun Hl Hm.
  destruct (minvalue_from_last_file fs _ _ _ _ _ _ Hrun) as (d & Hd & Hmin).
  unfold genfromtxt in Hd. rewrite Hl in Hd. injection Hd as <-.
  unfold final_min in Hmin. rewrite (np_min_finite _ _ Hm) in Hmin.
  cbn [mbind result_bind] in Hmin. unfold of_Z in Hmin. cbn [flt] in Hmin.
  change (Q2Qc (inject_Z 0)) with 0 in Hmin.
  destruct (decide (m < 0)) as [Hlt | Hge].
  - rewrite (bool_decide_eq_true_2 _ Hlt) in Hmin. congruence.
  - rewrite (bool_decide_eq_false_2 _ Hge) in Hmin. congruence.
Qed.

Lemma minimum_is_of_last_file_witness :
  snd (ratio 33 25, ratio (-1) 10)
  = Fin (if decide (Q2Qc (-1 # 10) < 0) then Q2Qc (-1 # 10) else 0).
Proof.
  apply (minimum_is_of_last_file two_traces_dir
           ["/where/your/files/are/a.csv"] "/where/your/files/are/b.csv"
           (of_Z 0) None (ratio 33 25, ratio (-1) 10)
           [Q2Qc (-1 # 10); Q2Qc (6 # 5)]).
  - compute_done.
  - compute_done.
  - split; [compute_done |]. intros x Hx.
    repeat (apply elem_of_cons in Hx as [-> | Hx]; [compute_done |]).
    inversion Hx.
Defined.

End range.

(** ** The exceptions of a run *)

Lemma bind_Raise_inv {A B} (f : A -> result B) (m : result A) (e : exn) :
  (m ≫= f) = Raise e -> m = Raise e \/ exists a, m = Ok a /\ f a = Raise e.
Proof. destruct m as [a | e']; cbn; [eauto | intros [= ->]; auto]. Qed.

(** Split a failed sequence of steps into the step that failed. *)
Ltac failed_step H :=
  repeat match type of H with
    | (_ ≫= _) = Raise _ =>
        let a := fresh "a" in
        let Ha := fresh "Ha" in
        apply bind_Raise_inv in H as [H | (a & Ha & H)]
    end.

Lemma item0_raises {A} (l : list A) (e : exn) :
  item0 l = Raise e -> e <> NameError.
Proof. destruct l; [intros [= <-] |]; discriminate. Qed.

Lemma genfromtxt_raises (fs : filesystem) (p : string) (e : exn) :
  genfromtxt fs p = Raise e -> e <> NameError.
Proof. unfold genfromtxt. destruct (read fs p); [| intros [= <-]]; discriminate. Qed.

Lemma np_max_raises (d : ndarray) (e : exn) :
  np_max d = Raise e -> e <> NameError.
Proof. unfold np_max. destruct (ravel d); [intros [= <-] |]; discriminate. Qed.

Lemma np_min_raises (d : ndarray) (e : exn) :
  np_min d = Raise e -> e <> NameError.
Proof. unfold np_min. destruct (ravel d); [intros [= <-] |]; discriminate. Qed.

Lemma broadcast_raises f (a b : ndarray) (e : exn) :
  broadcast f a b = Raise e -> e <> NameError.
Proof.
  destruct a as [x | l1], b as [y | l2]; cbn [broadcast]; try discriminate.
  destruct (length l1 =? length l2)%nat; [discriminate |].
  destruct l1 as [|? [|? ?]], l2 as [|? [|? ?]]; try discriminate;
    intros [= <-]; discriminate.
Qed.

Lemma savetxt_raises (fs : filesystem) (name : string) (a : ndarray)
    (e : exn) :
  savetxt fs name a = Raise e -> e <> NameError.
Proof. destruct a; [intros [= <-] |]; discriminate. Qed.

Lemma shape0_raises (a : ndarray) (e : exn) :
  shape0 a = Raise e -> e <> NameError.
Proof. destruct a; [intros [= <-] |]; discriminate. Qed.

Lemma float_raises (m : string) (e : exn) :
  Re.float m = Raise e -> e <> NameError.
Proof. intros H. rewrite (float_raises_ValueError m e H). discriminate. Qed.

Lemma encode_all_raises (l : list string) (e : exn) :
  encode_all l = Raise e -> e = UnicodeDecodeError.
Proof.
  induction l as [|x l IH]; [discriminate |]. cbn [encode_all].
  unfold Str.encode_utf8. destruct (Str.is_ascii x); cbn [mbind result_bind].
  - destruct (encode_all l); cbn [mbind result_bind]; [discriminate |].
    intros [= <-]. apply IH. reflexivity.
  - intros [= <-]. reflexivity.
Qed.

Create HintDb raises.
#[local] Hint Resolve item0_raises genfromtxt_raises np_max_raises
  np_min_raises broadcast_raises savetxt_raises shape0_raises
  float_raises : raises.

Lemma for_each_raises {A S} (body : S -> A -> result S) (l : list A) (s : S)
    (e : exn) :
  for_each body l s = Raise e -> exists s0 x, body s0 x = Raise e.
Proof.
  revert s. induction l as [|x l IH]; intros s; [discriminate |].
  cbn [for_each]. intros H. failed_step H; eauto.
Qed.

Lemma normalize_file_raises (control : ndarray)
    (st : filesystem * option ndarray) (source_filename : string) (e : exn) :
  normalize_file control st source_filename = Raise e -> e <> NameError.
Proof.
  unfold normalize_file, timerate, dF_F. intros H.
  failed_step H; eauto with raises; discriminate H.
Qed.

Lemma scan_file_raises (fs : filesystem) (st : float64 * option ndarray)
    (files : string) (e : exn) :
  scan_file fs st files = Raise e -> e <> NameError.
Proof.
  unfold scan_file, range_step. intros H.
  failed_step H; eauto with raises; try discriminate H.
  destruct (fgt _ _); [| discriminate H].
  failed_step H; eauto with raises; discriminate H.
Qed.

Lemma draw_all_raises (fs : filesystem) (minvalue maxvalue : float64)
    (paths : list string) (e : exn) :
  draw_all fs minvalue maxvalue paths = Raise e -> e <> NameError.
Proof.
  induction paths as [|p paths IH]; [discriminate |]. cbn [draw_all].
  intros H. failed_step H; [| exact (IH H) | discriminate H].
  unfold drawer in H. failed_step H; eauto with raises; discriminate H.
Qed.

(** After a pass over at least one file the global [dF_F] is bound. *)
Lemma scan_binds_dF_F (fs : filesystem) (paths : list string)
    (st st' : float64 * option ndarray) :
  paths <> [] ->
  for_each (scan_file fs) paths st = Ok st' ->
  exists d, snd st' = Some d.
Proof.
  intros Hne H. destruct (exists_last Hne) as (init & p & ->).
  destruct (scan_last fs _ _ _ _ H) as (d & _ & Hd). eauto.
Qed.

(** UV.csv is among the files found once the Normalizer is done. *)
Lemma UV_csv_is_found (fs fs1 : filesystem) (names l : list string)
    (control : ndarray) (g : option ndarray)
    (st : filesystem * option ndarray) :
  load_UV fs names = Ok fs1 ->
  for_each (normalize_file control) l (fs1, g) = Ok st ->
  In "/where/your/files/are/UV.csv" (csvz (fst st)).
Proof.
  intros Hfs1 Hloop.
  apply (csvz_complete (fst st) mypath "UV.csv" (map fst (top (fst st))));
    [left; reflexivity | | reflexivity].
  apply (normalize_keeps_files _ _ _ _ _ Hloop). cbn [fst].
  unfold load_UV in Hfs1. step Hfs1 as name Hname. step Hfs1 as UV HUV.
  step Hfs1 as norm Hnorm.
  exact (proj1 (savetxt_keys _ _ _ _ Hfs1)).
Qed.

(** X12. The script never fails on an unbound name.  The minimum test
    of lines 62-63 reads the global [dF_F], which only a turn of one of
    the two loops binds: after a pass over no file, with no recording
    normalised before, the test raises NameError.  In a run this does
    not happen, whatever the directory holds: UV.csv has been written by
    then (line 38) and is among the files the Range Scanner visits, so
    the test finds [dF_F] bound. *)
Theorem run_never_raises_NameError :
  (forall (fs : filesystem) (maxvalue minvalue : float64),
     range_scanner fs [] maxvalue minvalue None = Raise NameError)
  /\ forall fs : filesystem, run fs <> Raise NameError.
Proof.
  split; [reflexivity |]. intros fs H. revert H.
  generalize (eq_refl NameError). generalize NameError at 1 3 as e.
  intros e He H. enough (Hne : e <> NameError) by congruence. clear He.
  unfold run in H.
  apply bind_Raise_inv in H as [H | (names & Hnames & H)].
  { apply encode_all_raises in H. subst e. discriminate. }
  apply bind_Raise_inv in H as [H | (control & Hcontrol & H)].
  { unfold load_control in H. failed_step H; eauto with raises. }
  apply bind_Raise_inv in H as [H | (fs1 & Hfs1 & H)].
  { unfold load_UV, UVnorm in H. failed_step H; eauto with raises. }
  apply bind_Raise_inv in H as [H | (st & Hloop & H)].
  { destruct (for_each_raises _ _ _ _ H) as (s0 & x & Hx).
    exact (normalize_file_raises _ _ _ _ Hx). }
  apply bind_Raise_inv in H as [H | (range & Hrange & H)].
  { unfold range_scanner in H.
    apply bind_Raise_inv in H as [H | (st' & Hscan & H)].
    { destruct (for_each_raises _ _ _ _ H) as (s0 & x & Hx).
      exact (scan_file_raises _ _ _ _ Hx). }
    apply bind_Raise_inv in H as [H | (mn & _ & H)]; [| discriminate H].
    destruct (scan_binds_dF_F _ _ _ _ ltac:(
                intros Hnil;
                pose proof (UV_csv_is_found _ _ _ _ _ _ _ Hfs1 Hloop) as Hin;
                rewrite Hnil in Hin; exact Hin) Hscan) as (d & Hd).
    rewrite Hd in H. unfold final_min in H.
    apply bind_Raise_inv in H as [H | (m & _ & H)]; [eauto with raises |].
    destruct (flt m (of_Z 0)); [eauto with raises | discriminate H]. }
  apply bind_Raise_inv in H as [H | (plots & _ & H)]; [| discriminate H].
  exact (draw_all_raises _ _ _ _ _ H).
Qed.

(** ** The File Classifier on any directory *)

Lemma encode_all_non_ascii (l : list string) (name : string) :
  In name l -> Str.is_ascii name = false ->
  encode_all l = Raise UnicodeDecodeError.
Proof.
  intros Hin Hname. induction l as [|x l IH]; [destruct Hin |].
  cbn [encode_all]. unfold Str.encode_utf8.
  destruct (Str.is_ascii x) eqn:Hx; [| reflexivity].
  cbn [mbind result_bind]. destruct Hin as [-> | Hin]; [congruence |].
  rewrite (IH Hin). reflexivity.
Qed.

(** X13. One file name with a byte above 127 anywhere in the working
    directory aborts the run with UnicodeDecodeError, whether or not the
    file is a recording: line 21 encodes every name before any filter
    is applied. *)
Theorem non_ascii_name_aborts (fs : filesystem) (name : string) :
  In name (listdir_files fs) ->
  Str.is_ascii name = false ->
  run fs = Raise UnicodeDecodeError.
Proof.
  intros Hin Hname. unfold run, convertedfiles.
  rewrite (encode_all_non_ascii _ _ Hin Hname). reflexivity.
Qed.

Lemma non_ascii_name_aborts_witness :
  run {| top := [("control_dt_1.txt", [of_Z 1; of_Z 1]);
                 (String (ascii_of_nat 233) ".jpg", [])];
         sub := [] |} = Raise UnicodeDecodeError.
Proof.
  apply (non_ascii_name_aborts _ (String (ascii_of_nat 233) ".jpg"));
    [right; left; reflexivity | reflexivity].
Defined.

(** X14. The classifier sorts every name that passes the tests of lines
    22-27 into exactly one of its three lists, and nothing else into
    any: a name holding "control" is a control file (even if it also
    holds "UV"), otherwise a name holding "UV" is a UV file, otherwise
    it is a recording. *)
Theorem classifier_partition (l : list string) (s : string) :
  (In s (controlfile l)
   <-> In s l /\ candidate s = true /\ Str.contains "control" s = true)
  /\ (In s (UVfile l)
      <-> In s l /\ candidate s = true /\ Str.contains "control" s = false
          /\ Str.contains "UV" s = true)
  /\ (In s (cafiles l)
      <-> In s l /\ candidate s = true /\ Str.contains "control" s = false
          /\ Str.contains "UV" s = false)
  /\ (In s l -> candidate s = true ->
      (In s (controlfile l) /\ ~ In s (UVfile l) /\ ~ In s (cafiles l))
      \/ (~ In s (controlfile l) /\ In s (UVfile l) /\ ~ In s (cafiles l))
      \/ (~ In s (controlfile l) /\ ~ In s (UVfile l) /\ In s (cafiles l))).
Proof.
  rewrite controlfile_filter, UVfile_filter, cafiles_filter.
  rewrite !filter_In, !andb_true_iff, !negb_true_iff.
  split; [tauto |]. split; [tauto |]. split; [tauto |].
  intros Hin Hc.
  destruct (Str.contains "control" s), (Str.contains "UV" s);
    intuition congruence.
Qed.

Lemma classifier_partition_witness :
  (In "control_UV_dt_1.txt"
     (controlfile ["control_UV_dt_1.txt"; "UV_dt_1.txt"])
   /\ ~ In "control_UV_dt_1.txt"
          (UVfile ["control_UV_dt_1.txt"; "UV_dt_1.txt"])
   /\ ~ In "control_UV_dt_1.txt"
          (cafiles ["control_UV_dt_1.txt"; "UV_dt_1.txt"]))
  \/ (~ In "control_UV_dt_1.txt"
          (controlfile ["control_UV_dt_1.txt"; "UV_dt_1.txt"])
      /\ In "control_UV_dt_1.txt"
           (UVfile ["control_UV_dt_1.txt"; "UV_dt_1.txt"])
      /\ ~ In "control_UV_dt_1.txt"
             (cafiles ["control_UV_dt_1.txt"; "UV_dt_1.txt"]))
  \/ (~ In "control_UV_dt_1.txt"
          (controlfile ["control_UV_dt_1.txt"; "UV_dt_1.txt"])
      /\ ~ In "control_UV_dt_1.txt"
             (UVfile ["control_UV_dt_1.txt"; "UV_dt_1.txt"])
      /\ In "control_UV_dt_1.txt"
           (cafiles ["control_UV_dt_1.txt"; "UV_dt_1.txt"])).
Proof.
  apply (classifier_partition ["control_UV_dt_1.txt"; "UV_dt_1.txt"]
           "control_UV_dt_1.txt"); [left; reflexivity | reflexivity].
Defined.

(** ** The rate and what stands before the marker *)

Lemma prefix_marker_app (c : ascii) (x w : string) :
  String.prefix "_dt" w = true ->
  String.prefix "_dt" (String c x ++ w) = String.prefix "_dt" (String c x).
Proof.
  intros Hw. apply prefix_app_iff in Hw as [b ->].
  destruct x as [|d [|e x]];
    repeat match goal with
      | |- context [(String ?h ?r ++ ?y)%string] =>
          change (String h r ++ y)%string with (String h (r ++ y))
      | |- context [(EmptyString ++ ?y)%string] =>
          change (EmptyString ++ y)%string with y
      end;
    cbn [String.prefix];
    repeat match goal with
      | |- context [ascii_dec ?p ?q] => destruct (ascii_dec p q)
      end; try reflexivity; try congruence.
  transitivity true; [| symmetry]; apply prefix_app_iff; eexists; reflexivity.
Qed.

(** Without a marker of its own, a prefix leaves the first marker where
    the rest of the name has it. *)
Lemma find_marker_app (p w : string) :
  Str.contains "_dt" p = false ->
  String.prefix "_dt" w = true ->
  Str.find_nat "_dt" (p ++ w) = Some (String.length p).
Proof.
  intros Hp Hw. induction p as [|c p IH].
  - change (EmptyString ++ w)%string with w.
    destruct w; cbn [Str.find_nat]; rewrite Hw; reflexivity.
  - pose proof (prefix_marker_app c p w Hw) as Hpre.
    change (String c p ++ w)%string with (String c (p ++ w)) in *.
    cbn [Str.find_nat]. rewrite Hpre.
    unfold Str.contains in Hp. cbn [Str.find_nat] in Hp.
    destruct (String.prefix "_dt" (String c p)); [discriminate Hp |].
    rewrite IH; [reflexivity |]. unfold Str.contains.
    destruct (Str.find_nat "_dt" p); [discriminate Hp | reflexivity].
Qed.

(** X15. The rate is read behind the marker only: in front of a text
    that begins with "_dt", a prefix that does not hold "_dt" itself -
    whatever digits it holds - leaves the outcome of the rate extraction
    unchanged, result or exception. *)
Theorem rate_ignores_text_before_marker (p w : string) :
  Str.contains "_dt" p = false ->
  String.prefix "_dt" w = true ->
  timerate (p ++ w) = timerate w.
Proof.
  intros Hp Hw. unfold timerate.
  assert (Hpw : Str.slice (p ++ w) (Str.find "_dt" (p ++ w))
                  (Str.len (p ++ w)) = w).
  { unfold Str.find. rewrite (find_marker_app p w Hp Hw).
    apply slice_from_length. }
  assert (Hw' : Str.slice w (Str.find "_dt" w) (Str.len w) = w).
  { pose proof (find_marker_app EmptyString w eq_refl Hw) as H0.
    change (EmptyString ++ w)%string with w in H0.
    unfold Str.find. rewrite H0.
    exact (slice_from_length EmptyString w). }
  rewrite Hpw, Hw'. reflexivity.
Qed.

Lemma rate_ignores_text_before_marker_witness :
  timerate ("exp3" ++ "_dt_5_Values.txt") = timerate "_dt_5_Values.txt".
Proof. apply rate_ignores_text_before_marker; reflexivity. Defined.

(** ** The image a plot is saved to *)

Lemma slice_drop_csv (stem : string) :
  Str.slice (stem ++ ".csv") 0 (-4) = stem.
Proof.
  unfold Str.slice, Str.len, Str.clamp. rewrite string_length_app.
  change (0 <? 0) with false. change (-4 <? 0) with true. cbn iota.
  cbn [String.length].
  replace (Z.to_nat (Z.min 0 _)) with 0%nat by lia.
  replace (Z.to_nat (Z.max 0 (-4 + Z.of_nat (String.length stem + 4))
                     - Z.min 0 (Z.of_nat (String.length stem + 4))))
    with (String.length stem) by lia.
  apply substring_app_l.
Qed.

(** X16. For a file stem.csv directly in the working directory the
    Plotter, when it succeeds, titles the plot "stem.csv", draws the
    values of that file within the batch limits and saves the image as
    "stem.png". *)
Theorem plot_of_top_level_file (fs : filesystem)
    (minvalue maxvalue : float64) (stem : string) (pl : plot) :
  Str.contains "/" stem = false ->
  drawer fs minvalue (path_join mypath (stem ++ ".csv")) maxvalue = Ok pl ->
  title pl = (stem ++ ".csv")%string
  /\ image pl = (stem ++ ".png")%string
  /\ assoc (stem ++ ".csv") (top fs) = Some (ydata pl)
  /\ ylim pl = (minvalue, maxvalue)
  /\ snd (xlim pl) = length (ydata pl).
Proof.
  intros Hstem H.
  assert (Hname : Str.contains "/" (stem ++ ".csv") = false)
    by apply no_slash_app_csv, Hstem.
  rewrite (path_join_top _ Hname) in H.
  unfold drawer in H. fold (basename (mypath ++ stem ++ ".csv")) in H.
  rewrite (basename_top _ Hname) in H.
  step H as d Hd. step H as n Hn. injection H as <-.
  cbn [title image ydata ylim xlim snd].
  unfold genfromtxt in Hd. rewrite (proj1 (read_top fs _ Hname)) in Hd.
  destruct (assoc (stem ++ ".csv") (top fs)) as [rows |]; [| discriminate Hd].
  injection Hd as <-.
  destruct (squeeze_cases rows) as [(x & -> & Hsq) | (_ & Hsq)];
    rewrite Hsq in Hn |- *; [discriminate Hn |].
  injection Hn as <-. cbn [ravel].
  rewrite slice_drop_csv. repeat split.
Qed.

Lemma plot_of_top_level_file_witness :
  title trace_plot = ("2_" ++ ".csv")%string
  /\ image trace_plot = ("2_" ++ ".png")%string
  /\ assoc ("2_" ++ ".csv") (top four_sample_dir_after)
     = Some (ydata trace_plot)
  /\ ylim trace_plot = (of_Z (-1), ratio 11 10)
  /\ snd (xlim trace_plot) = length (ydata trace_plot).
Proof.
  apply (plot_of_top_level_file four_sample_dir_after (of_Z (-1))
           (ratio 11 10) "2_" trace_plot); [reflexivity |].
  vm_compute. reflexivity.
Defined.

(** ** Files too short to scan *)

(** X17. A run completes only if every file ending in ".csv" found
    under the working directory holds at least one value: on a file
    without values [np.max] raises, so the Range Scanner fails and
    nothing is plotted. *)
Theorem scanned_files_are_not_empty (fs : filesystem) (o : outcome) :
  run fs = Ok o ->
  Forall (fun p => exists rows,
            read (out_fs o) p = Some rows /\ rows <> []) (out_csvz o).
Proof.
  unfold run. intros H.
  step H as names Hnames. step H as control Hcontrol. step H as fs1 Hfs1.
  step H as st Hloop. step H as range Hrange. step H as plots Hplots.
  injection H as <-. cbn [out_fs out_csvz].
  unfold range_scanner in Hrange. step Hrange as st' Hscan.
  destruct st' as [mx g'].
  assert (Hseed : nonneg (of_Z 0)) by compute_done.
  destruct (scan_invariant _ _ _ _ _ _ Hseed Hscan) as (_ & _ & Hall).
  eapply Forall_impl; [exact Hall |].
  intros p (d & m & Hd & Hm & _). unfold genfromtxt in Hd.
  destruct (read (fst st) p) as [rows |]; [| discriminate Hd].
  injection Hd as <-. exists rows. split; [reflexivity |].
  intros ->. discriminate Hm.
Qed.

Lemma scanned_files_are_not_empty_witness :
  Forall (fun p => exists rows,
            read (out_fs plain_outcome) p = Some rows /\ rows <> [])
    (out_csvz plain_outcome).
Proof.
  apply (scanned_files_are_not_empty plain_dir plain_outcome).
  vm_compute. reflexivity.
Defined.
